(** * redherring.distractor_env: the DMCWrapper environment adapter

    A shallow embedding of [src/redherring/distractor_env.py] and the
    properties its specification states about it.

    - Python exceptions are a [result] monad.
    - numpy [float32]/[float64] values are IEEE-754 numbers
      ([spec_float] of the standard library) with the operations of the
      two formats; rounding is to nearest, ties to even, as numpy does.
    - a rendered frame, an (H, W, 3) [uint8] array, is a list of rows of
      pixels; an observation in channel-first layout is a list of three
      planes.
    - the control suite, its physics and the background sources are
      libraries outside this file: they are the interface [ControlSuite]. *)

From Stdlib Require Import ZArith Lia Bool.
From Stdlib Require Import Floats.SpecFloat.
From stdpp Require Import base option list strings gmap.

Local Open Scope Z_scope.

(** [map] on lists, with stdpp's lemmas *)
Abbreviation lmap := (fmap (M:=list)).

(** ** Exceptions *)

Inductive exn :=
  | AssertionError (msg : string)
  | TypeError
  | ValueError
  | IndexError
  | UnboundLocalError (name : string)
  | AttributeError (name : string)
  | Exception (msg : string)
  | SuiteError.

Inductive result (A : Type) :=
  | Ok (a : A)
  | Raise (e : exn).
Arguments Ok {A} a.
Arguments Raise {A} e.

#[global] Instance result_ret : MRet result := @Ok.
#[global] Instance result_bind : MBind result := fun A B f m =>
  match m with
  | Ok a => f a
  | Raise e => Raise e
  end.

Definition raises {A} (r : result A) : bool :=
  match r with Ok _ => false | Raise _ => true end.

(** [assert c, msg] *)
Definition py_assert (c : bool) (msg : string) : result unit :=
  if c then Ok tt else Raise (AssertionError msg).

(** ** numpy floating point *)

Module Float.

(** [float32] is binary32 (24 bits of precision), [float64] binary64. *)
Definition prec32 := 24.
Definition emax32 := 128.
Definition prec64 := 53.
Definition emax64 := 1024.

Definition signed (s : bool) (m : positive) : Z :=
  if s then Zneg m else Zpos m.

(** [x.astype(np.float64)] and [x.astype(np.float32)]: the value is
    rounded into the target format (a widening cast is exact). *)
Definition astype (prec emax : Z) (x : spec_float) : spec_float :=
  match x with
  | S754_finite s m e => binary_normalize prec emax (signed s m) e s
  | _ => x
  end.
Definition to64 := astype prec64 emax64.
Definition to32 := astype prec32 emax32.

(** The number [m * 2^e] as a [float32] or a [float64]. *)
Definition f32 (m e : Z) : spec_float := binary_normalize prec32 emax32 m e false.
Definition f64 (m e : Z) : spec_float := binary_normalize prec64 emax64 m e false.

Definition inf : spec_float := S754_infinity false.
Definition neg_inf : spec_float := S754_infinity true.

Definition sub32 := SFsub prec32 emax32.
Definition add64 := SFadd prec64 emax64.
Definition sub64 := SFsub prec64 emax64.
Definition mul64 := SFmul prec64 emax64.
Definition div64 := SFdiv prec64 emax64.

(** [x <= y] on numbers of one format; false when either is NaN. *)
Definition leb (x y : spec_float) : bool := SFleb x y.

Definition is_zero (x : spec_float) : bool :=
  match x with S754_zero _ => true | _ => false end.

End Float.

(** ** Python numbers: the reward accumulator of [step]

    [reward = 0] starts as an [int]; [reward += r] with a float [r]
    turns it into a float. *)

Inductive pynum :=
  | PyInt (z : Z)
  | PyFloat (f : spec_float).

Definition py_truthy (x : pynum) : bool :=
  match x with
  | PyInt z => negb (z =? 0)
  | PyFloat f => negb (Float.is_zero f)
  end.

Definition py_float (x : pynum) : spec_float :=
  match x with
  | PyInt z => Float.f64 z 0
  | PyFloat f => f
  end.

Definition py_add (x y : pynum) : pynum :=
  match x, y with
  | PyInt a, PyInt b => PyInt (a + b)
  | _, _ => PyFloat (Float.add64 (py_float x) (py_float y))
  end.

(** [x or d] where [x] may be [None] *)
Definition py_or (x : option pynum) (d : pynum) : pynum :=
  match x with
  | Some v => if py_truthy v then v else d
  | None => d
  end.

(** Equal as numbers: [0], [0.0] and [-0.0] are one number. *)
Definition num_eq (x y : pynum) : Prop :=
  py_float x = py_float y
  ∨ (Float.is_zero (py_float x) = true ∧ Float.is_zero (py_float y) = true).

(** The accumulator [c] of the loop against the plain sum [s]: both are
    still zero, or both are floats that are the same number. *)
Definition zeroish (x : pynum) : Prop :=
  x = PyInt 0 ∨ ∃ b, x = PyFloat (S754_zero b).

Definition tracks (c s : pynum) : Prop :=
  (c = PyInt 0 ∧ zeroish s)
  ∨ ∃ f f', c = PyFloat f ∧ s = PyFloat f'
            ∧ (f = f' ∨ (Float.is_zero f = true ∧ Float.is_zero f' = true)).

(** [x or d] on an optional integer argument (0 and [None] are falsy) *)
Definition int_or (x : option Z) (d : Z) : Z :=
  match x with
  | Some v => if v =? 0 then d else v
  | None => d
  end.

(** Values stored in keyword dictionaries and found as attributes. *)
Inductive pyval :=
  | PyNone
  | PyNum (n : pynum)
  | PyStr (s : string).

(** ** numpy arrays *)

Module Numpy.

(** One pixel of an (H, W, 3) [uint8] array: its three channels. *)
Record pixel := Pixel { ch0 : Z; ch1 : Z; ch2 : Z }.

(** An (H, W, 3) array, row by row. *)
Abbreviation frame := (list (list pixel)).

(** A (3, H, W) array: three planes of H rows. *)
Abbreviation planes := (list (list (list Z))).

Inductive channel := C0 | C1 | C2.

Definition chan (c : channel) (p : pixel) : Z :=
  match c with C0 => ch0 p | C1 => ch1 p | C2 => ch2 p end.

Definition chan_index (c : channel) : nat :=
  match c with C0 => 0 | C1 => 1 | C2 => 2 end%nat.

(** [a[:, :, c]] *)
Definition plane (c : channel) (a : frame) : list (list Z) :=
  lmap (lmap (chan c)) a.

(** [a > b], elementwise *)
Definition greater (a b : list (list Z)) : list (list bool) :=
  zip_with (zip_with (fun x y => y <? x)) a b.

(** [np.logical_and(a, b)] *)
Definition logical_and (a b : list (list bool)) : list (list bool) :=
  zip_with (zip_with andb) a b.

(** The first two axes of [m] and [a] agree. *)
Definition same_shape {A B} (m : list (list A)) (a : list (list B)) : bool :=
  (length m =? length a)%nat
  && forallb (fun rs => (length rs.1 =? length rs.2)%nat) (zip m a).

Fixpoint select {A} (m : list bool) (row : list A) : list A :=
  match m, row with
  | b :: m', x :: row' => if b then x :: select m' row' else select m' row'
  | _, _ => []
  end.

(** [a[mask]]: the pixels under the mask, in row-major order. *)
Definition getitem_mask (a : frame) (mask : list (list bool)) : result (list pixel) :=
  if same_shape mask a then Ok (concat (zip_with select mask a))
  else Raise IndexError.

Definition count_true (mask : list (list bool)) : nat :=
  length (concat (zip_with select mask mask)).

(** Writes [vals] in order at the positions of a row where the mask
    holds; returns the row and the values left over. *)
Fixpoint put {A} (m : list bool) (row vals : list A) : list A * list A :=
  match m, row with
  | b :: m', x :: row' =>
      if b then
        match vals with
        | v :: vals' => let '(r, rest) := put m' row' vals' in (v :: r, rest)
        | [] => let '(r, rest) := put m' row' [] in (x :: r, rest)
        end
      else let '(r, rest) := put m' row' vals in (x :: r, rest)
  | _, _ => (row, vals)
  end.

Fixpoint put_rows {A} (m : list (list bool)) (a : list (list A)) (vals : list A)
  : list (list A) :=
  match m, a with
  | mr :: m', row :: a' =>
      let '(r, rest) := put mr row vals in r :: put_rows m' a' rest
  | _, _ => a
  end.

(** [a[mask] = vals]: as many values as the mask selects, or one value
    that is broadcast. *)
Definition setitem_mask (a : frame) (mask : list (list bool)) (vals : list pixel)
  : result frame :=
  if same_shape mask a then
    let n := count_true mask in
    if (length vals =? n)%nat then Ok (put_rows mask a vals)
    else match vals with
         | [v] => Ok (put_rows mask a (replicate n v))
         | _ => Raise ValueError
         end
  else Raise IndexError.

(** [a.transpose(2, 0, 1)]: out[c][i][j] = a[i][j][c] *)
Definition transpose_201 (a : frame) : planes :=
  [plane C0 a; plane C1 a; plane C2 a].

(** [np.transpose(a, (1, 2, 0))]: out[i][j][c] = a[c][i][j] *)
Definition transpose_120 (a : planes) : result frame :=
  match a with
  | [p0; p1; p2] =>
      Ok (zip_with (fun r0 r12 =>
            zip_with (fun x yz => Pixel x yz.1 yz.2) r0 (zip r12.1 r12.2))
          p0 (zip p1 p2))
  | _ => Raise ValueError
  end.

(** [np.concatenate(pieces, axis=0)] of one-dimensional arrays *)
Definition concatenate {A} (pieces : list (list A)) : result (list A) :=
  match pieces with
  | [] => Raise ValueError
  | _ => Ok (concat pieces)
  end.

(** An n-dimensional array as nested sequences; [Item] is a 0-d array. *)
#[warnings="-register-all"]
Inductive ndarray (A : Type) :=
  | Item (x : A)
  | Axis (rows : list (ndarray A)).
Arguments Item {A} x.
Arguments Axis {A} rows.

(** [a.ravel()] *)
Fixpoint ravel {A} (a : ndarray A) : list A :=
  match a with
  | Item x => [x]
  | Axis rows => concat (lmap ravel rows)
  end.

(** [a.size]: the number of elements *)
Fixpoint size {A} (a : ndarray A) : nat :=
  match a with
  | Item _ => 1%nat
  | Axis rows => sum_list (lmap size rows)
  end.

(** [a op b] on one-dimensional arrays with numpy's broadcasting *)
Definition broadcast {A B C} (f : A -> B -> C) (a : list A) (b : list B)
  : result (list C) :=
  if (length a =? length b)%nat then Ok (zip_with f a b)
  else match a, b with
       | [x], _ => Ok (lmap (f x) b)
       | _, [y] => Ok (lmap (fun x => f x y) a)
       | _, _ => Raise ValueError
       end.

(** [np.where(mask, b, a)] on equally shaped arrays: [b] under the mask,
    [a] elsewhere. *)
Definition choose {A} (m : list bool) (b a : list A) : list A :=
  zip_with (fun (c : bool) qp => if c then qp.1 else qp.2) m (zip b a).

Definition where_mask {A} (mask : list (list bool)) (b a : list (list A))
  : list (list A) :=
  zip_with (fun mr ba => choose mr ba.1 ba.2) mask (zip b a).

(** Indexing helpers used to state properties. *)
Definition pix {A} (a : list (list A)) (i j : nat) : option A :=
  a !! i ≫= fun row => row !! j.

Definition at3 (a : planes) (c : channel) (i j : nat) : option Z :=
  a !! chan_index c ≫= fun p => pix p i j.

(** The shape (C, H, W) of a channel-first array. *)
Definition has_shape3 (a : planes) (c h w : nat) : Prop :=
  length a = c ∧ Forall (fun p => length p = h ∧ Forall (fun row => length row = w) p) a.

Definition has_shape2 {A} (a : list (list A)) (h w : nat) : Prop :=
  length a = h ∧ Forall (fun row => length row = w) a.

Definition uint8 (x : Z) : Prop := 0 <= x <= 255.

Definition uint8_frame (a : frame) : Prop :=
  Forall (Forall (fun p => uint8 (ch0 p) ∧ uint8 (ch1 p) ∧ uint8 (ch2 p))) a.

End Numpy.

(** ** gym spaces *)

Module Gym.

(** A one-dimensional [Box] of dtype [float32]; [np_random] records the
    seed given to [Box.seed]. *)
Record Box := MkBox {
  low : list spec_float;
  high : list spec_float;
  np_random : option pyval
}.

(** [Box(low=0, high=255, shape=..., dtype=np.uint8)] *)
Record PixelBox := MkPixelBox {
  pixel_low : Z;
  pixel_high : Z;
  pixel_shape : list Z;
  pixel_random : option pyval
}.

Inductive Space :=
  | FloatSpace (b : Box)
  | PixelSpace (b : PixelBox).

(** [spaces.Box(low, high, shape=(n,), dtype=np.float32)] with scalar bounds *)
Definition full_box (lo hi : spec_float) (n : nat) : Box :=
  MkBox (replicate n lo) (replicate n hi) None.

(** [Box.contains]: same shape, and every entry within its bounds *)
Definition contains (b : Box) (x : list spec_float) : bool :=
  (length x =? length (low b))%nat
  && forallb (fun lx => Float.leb lx.1 lx.2) (zip (low b) x)
  && forallb (fun xh => Float.leb xh.1 xh.2) (zip x (high b)).

Definition rows_of_width (w : nat) (p : list (list Z)) : bool :=
  forallb (fun row => (length row =? w)%nat) p.

Definition pixel_contains (b : PixelBox) (x : Numpy.planes) : bool :=
  match pixel_shape b with
  | [c; h; w] =>
      (Z.of_nat (length x) =? c)
      && forallb (fun p => (Z.of_nat (length p) =? h)
                           && rows_of_width (Z.to_nat w) p) x
      && (0 <=? w)
      && forallb (forallb (forallb (fun v => (pixel_low b <=? v) && (v <=? pixel_high b)))) x
  | _ => false
  end.

Definition seed_box (s : pyval) (b : Box) : Box :=
  MkBox (low b) (high b) (Some s).

Definition space_seed (sp : Space) : option pyval :=
  match sp with
  | FloatSpace b => np_random b
  | PixelSpace b => pixel_random b
  end.

Definition seed_space (s : pyval) (sp : Space) : Space :=
  match sp with
  | FloatSpace b => FloatSpace (seed_box s b)
  | PixelSpace b =>
      PixelSpace (MkPixelBox (pixel_low b) (pixel_high b) (pixel_shape b) (Some s))
  end.

End Gym.

(** ** dm_env specs and time steps *)

Inductive dtype := float32 | float64 | other_dtype.

Inductive ArraySpec :=
  | Array (shape : list Z) (dt : dtype)
  | BoundedArray (shape : list Z) (dt : dtype) (minimum maximum : list spec_float).

Definition spec_shape (s : ArraySpec) : list Z :=
  match s with Array sh _ => sh | BoundedArray sh _ _ _ => sh end.

Definition spec_dtype (s : ArraySpec) : dtype :=
  match s with Array _ dt => dt | BoundedArray _ dt _ _ => dt end.

Inductive StepType := FIRST | MID | LAST.

(** A value of the observation dictionary. *)
Inductive obs_value :=
  | Scalar (x : spec_float)
  | NdArray (a : Numpy.ndarray spec_float).

Record TimeStep := MkTimeStep {
  step_type : StepType;
  reward : option spec_float;
  discount : option spec_float;
  observation : list (string * obs_value)
}.

(** [time_step.last()] *)
Definition last (ts : TimeStep) : bool :=
  match step_type ts with LAST => true | _ => false end.

(** ** Background sources *)

(** Modelled from the spec: the four background generators of
    [redherring.distractor_source] (solid color, noise, sampled images,
    sampled video frames) are not among the sources.  A source is the
    constructor call that made it; the images it hands out are given by
    the interface below. *)
Inductive source :=
  | RandomColorSource (shape2d : Z * Z)
  | NoiseSource (shape2d : Z * Z)
  | RandomImageSource (shape2d : Z * Z) (files : list string)
      (grayscale : bool) (total_frames : option Z)
  | RandomVideoSource (shape2d : Z * Z) (files : list string)
      (grayscale : bool) (total_frames : option Z).

(** A source together with the number of images drawn from it. *)
Record bg_state := MkBg { bg_source : source; bg_drawn : nat }.

(** ** The libraries around the wrapper *)

Class ControlSuite (E : Type) := {
  (** [local_dm_control_suite.load(domain_name, task_name, task_kwargs,
      visualize_reward, environment_kwargs)] *)
  suite_load : string -> string -> gmap string pyval -> bool ->
               option (gmap string pyval) -> result E;
  action_spec : E -> ArraySpec;
  observation_spec : E -> list (string * ArraySpec);
  env_step : E -> list spec_float -> TimeStep * E;
  env_reset : E -> TimeStep * E;
  (** [physics.get_state()] *)
  get_state : E -> list spec_float;
  (** [physics.render(height, width, camera_id)] *)
  physics_render : E -> Z -> Z -> Z -> Numpy.frame;
  (** [getattr(env, name)] *)
  env_getattr : E -> string -> result pyval;
  (** attributes that [gym.core.Env] and [object] define *)
  inherited : string -> bool;
  (** [glob.glob(os.path.expanduser(pattern))] *)
  glob_expanduser : string -> list string;
  (** the image, an (H, W, 3) [uint8] array, that a source returns at its
      n-th [get_image()] *)
  source_image : source -> nat -> Numpy.frame
}.

(** ** The wrapper *)

Section Wrapper.
Context {E : Type} `{!ControlSuite E}.

(** The attributes [__init__] sets.  [_bg_source] is set only when a
    distractor type is given. *)
Record DMCWrapper := MkWrapper {
  _from_pixels : bool;
  _height : Z;
  _width : Z;
  _camera_id : Z;
  _frame_skip : Z;
  _img_source : option string;
  _env : E;
  _true_action_space : Gym.Box;
  _norm_action_space : Gym.Box;
  _observation_space : Gym.Space;
  _internal_state_space : Gym.Box;
  _bg_source : option bg_state
}.

Definition with_env (w : DMCWrapper) (env : E) : DMCWrapper :=
  MkWrapper (_from_pixels w) (_height w) (_width w) (_camera_id w)
    (_frame_skip w) (_img_source w) env (_true_action_space w)
    (_norm_action_space w) (_observation_space w) (_internal_state_space w)
    (_bg_source w).

Definition with_bg (w : DMCWrapper) (bg : bg_state) : DMCWrapper :=
  MkWrapper (_from_pixels w) (_height w) (_width w) (_camera_id w)
    (_frame_skip w) (_img_source w) (_env w) (_true_action_space w)
    (_norm_action_space w) (_observation_space w) (_internal_state_space w)
    (Some bg).

(** *** [_spec_to_box]

    The bounds of a bounded spec are one-dimensional, as those of the
    suite's action specs are; [np.int] is Python's [int]. *)

Definition is_float (dt : dtype) : bool :=
  match dt with float32 | float64 => true | other_dtype => false end.

Definition extract_min_max (s : ArraySpec)
  : result (list spec_float * list spec_float) :=
  _ ← py_assert (is_float (spec_dtype s)) "";
  let dim := Z.to_nat (foldr Z.mul 1 (spec_shape s)) in
  match s with
  | Array _ _ =>
      let bound := replicate dim Float.inf in
      Ok (lmap SFopp bound, bound)
  | BoundedArray _ _ minimum maximum =>
      let zeros := replicate dim (S754_zero false) in
      lo ← Numpy.broadcast Float.add64 minimum (lmap Float.to64 zeros);
      hi ← Numpy.broadcast Float.add64 maximum (lmap Float.to64 zeros);
      Ok (lo, hi)
  end.

Definition _spec_to_box (spec : list ArraySpec) : result Gym.Box :=
  bounds ← mapM extract_min_max spec;
  low ← Numpy.concatenate (lmap fst bounds);
  high ← Numpy.concatenate (lmap snd bounds);
  _ ← py_assert (length low =? length high)%nat "";
  Ok (Gym.MkBox (lmap Float.to32 low) (lmap Float.to32 high) None).

(** *** [_flatten_obs] *)

Definition flat (v : obs_value) : list spec_float :=
  match v with
  | Scalar x => [x]
  | NdArray a => Numpy.ravel a
  end.

Definition _flatten_obs (obs : list (string * obs_value)) : result (list spec_float) :=
  let obs_pieces := foldl (fun pieces kv => pieces ++ [flat kv.2]) [] obs in
  Numpy.concatenate obs_pieces.

(** The number of elements of a value of the observation dictionary. *)
Definition value_size (v : obs_value) : nat :=
  match v with
  | Scalar _ => 1%nat
  | NdArray a => Numpy.size a
  end.

(** *** Rendering and observations *)

Definition _render (w : DMCWrapper) (mode : string)
    (height width camera_id : option Z) : result Numpy.frame :=
  _ ← py_assert (String.eqb mode "rgb_array") "";
  let height := int_or height (_height w) in
  let width := int_or width (_width w) in
  let camera_id := int_or camera_id (_camera_id w) in
  Ok (physics_render (_env w) height width camera_id).

Inductive obs :=
  | Pixels (a : Numpy.planes)
  | Flat (v : list spec_float).

(** The mask of [_get_obs]: channel 2 strictly above channels 1 and 0. *)
Definition dmc_mask (a : Numpy.frame) : list (list bool) :=
  Numpy.logical_and
    (Numpy.greater (Numpy.plane Numpy.C2 a) (Numpy.plane Numpy.C1 a))
    (Numpy.greater (Numpy.plane Numpy.C2 a) (Numpy.plane Numpy.C0 a)).

(** [self._bg_source.get_image()]; without the attribute the lookup
    falls through [__getattr__] to the environment. *)
Definition get_image (w : DMCWrapper) : result (Numpy.frame * DMCWrapper) :=
  match _bg_source w with
  | Some bg =>
      Ok (source_image (bg_source bg) (bg_drawn bg),
          with_bg w (MkBg (bg_source bg) (S (bg_drawn bg))))
  | None =>
      _ ← env_getattr (_env w) "_bg_source";
      Raise (AttributeError "get_image")
  end.

(** [time_step] is [None] for the call [self._get_obs(0)] of [render]. *)
Definition _get_obs (w : DMCWrapper) (time_step : option TimeStep)
  : result (obs * DMCWrapper) :=
  if _from_pixels w then
    a ← _render w "rgb_array" (Some (_height w)) (Some (_width w))
          (Some (_camera_id w));
    '(a, w) ← match _img_source w with
              | Some _ =>
                  let mask := dmc_mask a in
                  '(bg, w) ← get_image w;
                  vals ← Numpy.getitem_mask bg mask;
                  a ← Numpy.setitem_mask a mask vals;
                  Ok (a, w)
              | None => Ok (a, w)
              end;
    Ok (Pixels (Numpy.transpose_201 a), w)
  else
    match time_step with
    | Some ts =>
        v ← _flatten_obs (observation ts);
        Ok (Flat v, w)
    | None => Raise (AttributeError "observation")
    end.

(** *** Actions *)

Definition _convert_action (w : DMCWrapper) (action : list spec_float)
  : result (list spec_float) :=
  let tas := _true_action_space w in
  let nas := _norm_action_space w in
  let action := lmap Float.to64 action in
  true_delta ← Numpy.broadcast Float.sub32 (Gym.high tas) (Gym.low tas);
  norm_delta ← Numpy.broadcast Float.sub32 (Gym.high nas) (Gym.low nas);
  action ← Numpy.broadcast Float.sub64 action (lmap Float.to64 (Gym.low nas));
  action ← Numpy.broadcast Float.div64 action (lmap Float.to64 norm_delta);
  action ← Numpy.broadcast Float.mul64 action (lmap Float.to64 true_delta);
  action ← Numpy.broadcast Float.add64 action (lmap Float.to64 (Gym.low tas));
  Ok (lmap Float.to32 action).

(** The rescaling as the specification words it:
    [true_low + ((a - (-1)) / 2) * (true_high - true_low)], computed in
    [float64] and cast back to [float32]. *)
Definition affine_rescale (true_low true_high a : spec_float) : spec_float :=
  let lo := Float.to64 true_low in
  let hi := Float.to64 true_high in
  let a := Float.to64 a in
  Float.to32
    (Float.add64 lo
       (Float.mul64
          (Float.div64 (Float.sub64 a (Float.f64 (-1) 0)) (Float.f64 2 0))
          (Float.sub64 hi lo))).

(** *** [step] and [reset] *)

Record extra := MkExtra {
  internal_state : list spec_float;
  extra_discount : option spec_float
}.

Definition reward_or_0 (ts : TimeStep) : pynum :=
  py_or (PyFloat <$> reward ts) (PyInt 0).

(** The [for _ in range(n)] loop of [step]; the last component is the
    variable [time_step], unbound before the first iteration. *)
Fixpoint frame_loop (n : nat) (env : E) (action : list spec_float)
    (rew : pynum) (time_step : option TimeStep)
  : E * pynum * option TimeStep :=
  match n with
  | O => (env, rew, time_step)
  | S n' =>
      let '(ts, env) := env_step env action in
      let rew := py_add rew (reward_or_0 ts) in
      if last ts then (env, rew, Some ts)
      else frame_loop n' env action rew (Some ts)
  end.

Definition step (w : DMCWrapper) (action : list spec_float)
  : result (obs * pynum * bool * extra * DMCWrapper) :=
  _ ← py_assert (Gym.contains (_norm_action_space w) action) "";
  action ← _convert_action w action;
  _ ← py_assert (Gym.contains (_true_action_space w) action) "";
  let internal := get_state (_env w) in
  let '(env, rew, time_step) :=
    frame_loop (Z.to_nat (_frame_skip w)) (_env w) action (PyInt 0) None in
  match time_step with
  | None => Raise (UnboundLocalError "time_step")
  | Some ts =>
      '(o, w) ← _get_obs (with_env w env) (Some ts);
      Ok (o, rew, last ts, MkExtra internal (discount ts), w)
  end.

Definition reset (w : DMCWrapper) : result (obs * DMCWrapper) :=
  let '(ts, env) := env_reset (_env w) in
  _get_obs (with_env w env) (Some ts).

Definition render (w : DMCWrapper) (mode : string)
    (height width camera_id : option Z) : result (Numpy.frame * DMCWrapper) :=
  '(img, w') ← (if _from_pixels w then
                  '(o, w') ← _get_obs w None;
                  match o with
                  | Pixels a => img ← Numpy.transpose_120 a; Ok (img, w')
                  | Flat _ => Raise ValueError
                  end
                else
                  img ← _render w mode height width camera_id;
                  Ok (img, w));
  _ ← (if String.eqb mode "human" then py_assert (_from_pixels w) "" else Ok tt);
  Ok (img, w').

(** [observation_space], [action_space]: the properties of the class *)
Definition observation_space (w : DMCWrapper) : Gym.Space := _observation_space w.
Definition action_space (w : DMCWrapper) : Gym.Box := _norm_action_space w.

(** [space.contains(o)] *)
Definition in_space (sp : Gym.Space) (o : obs) : bool :=
  match sp, o with
  | Gym.PixelSpace b, Pixels a => Gym.pixel_contains b a
  | Gym.FloatSpace b, Flat v => Gym.contains b v
  | _, _ => false
  end.

(** *** Construction *)

Definition seed (w : DMCWrapper) (s : pyval) : DMCWrapper :=
  MkWrapper (_from_pixels w) (_height w) (_width w) (_camera_id w)
    (_frame_skip w) (_img_source w) (_env w)
    (Gym.seed_box s (_true_action_space w))
    (Gym.seed_box s (_norm_action_space w))
    (Gym.seed_space s (_observation_space w))
    (_internal_state_space w) (_bg_source w).

Definition seed_message : string :=
  "please specify a seed, for deterministic behaviour".

(** ['random' in task_kwargs]; [None] does not support [in]. *)
Definition check_seed (task_kwargs : option (gmap string pyval))
  : result (gmap string pyval) :=
  match task_kwargs with
  | None => Raise TypeError
  | Some d =>
      _ ← py_assert (bool_decide (is_Some (d !! "random"))) seed_message;
      Ok d
  end.

(** The background block of [__init__]. *)
Definition make_background (distractor_type : option string)
    (distractor_files : string) (total_frames : option Z) (height width : Z)
  : result (option bg_state) :=
  match distractor_type with
  | None => Ok None
  | Some ty =>
      let shape2d := (height, width) in
      if String.eqb ty "color" then
        Ok (Some (MkBg (RandomColorSource shape2d) 0))
      else if String.eqb ty "noise" then
        Ok (Some (MkBg (NoiseSource shape2d) 0))
      else
        let files := glob_expanduser distractor_files in
        _ ← py_assert (negb (length files =? 0)%nat)
              ("Pattern " +:+ distractor_files +:+ " does not match any files");
        if String.eqb ty "images" then
          Ok (Some (MkBg (RandomImageSource shape2d files true total_frames) 0))
        else if String.eqb ty "video" then
          Ok (Some (MkBg (RandomVideoSource shape2d files true total_frames) 0))
        else Raise (Exception ("img_source " +:+ ty +:+ " not defined."))
  end.

(** The observation-space block of [__init__]; numpy refuses a negative
    dimension. *)
Definition make_observation_space (from_pixels : bool) (height width : Z)
    (env : E) : result Gym.Space :=
  if from_pixels then
    if (height <? 0) || (width <? 0) then Raise ValueError
    else Ok (Gym.PixelSpace (Gym.MkPixelBox 0 255 [3; height; width] None))
  else
    b ← _spec_to_box (lmap snd (observation_spec env));
    Ok (Gym.FloatSpace b).

Definition __init__ (robot_name task_name distractor_files : string)
    (distractor_type : option string) (total_frames : option Z)
    (task_kwargs : option (gmap string pyval)) (visualize_reward : bool)
    (from_pixels : bool) (height width camera_id frame_skip : Z)
    (environment_kwargs : option (gmap string pyval)) : result DMCWrapper :=
  kwargs ← check_seed task_kwargs;
  env ← suite_load robot_name task_name kwargs visualize_reward
          environment_kwargs;
  tas ← _spec_to_box [action_spec env];
  let nas := Gym.full_box (Float.f32 (-1) 0) (Float.f32 1 0)
               (length (Gym.low tas)) in
  observation_space ← make_observation_space from_pixels height width env;
  let internal := Gym.full_box Float.neg_inf Float.inf (length (get_state env)) in
  bg ← make_background distractor_type distractor_files total_frames
         height width;
  let w := MkWrapper from_pixels height width camera_id frame_skip
             distractor_type env tas nas observation_space internal bg in
  Ok (seed w (default (PyNum (PyInt 1)) (kwargs !! "random"))).

(** *** Attribute access *)

(** Where [getattr(wrapper, name)] finds the attribute. *)
Inductive attribute :=
  | InstanceAttr (name : string)
  | ClassAttr (name : string)
  | Forwarded (v : pyval).

Definition instance_dict (w : DMCWrapper) : list string :=
  ["_from_pixels"; "_height"; "_width"; "_camera_id"; "_frame_skip";
   "_img_source"; "_env"; "_true_action_space"; "_norm_action_space";
   "_observation_space"; "_internal_state_space"]
  ++ match _bg_source w with Some _ => ["_bg_source"] | None => [] end.

Definition class_dict : list string :=
  ["metadata"; "__init__"; "__getattr__"; "_get_obs"; "_convert_action";
   "observation_space"; "internal_state_space"; "action_space"; "seed";
   "step"; "reset"; "_render"; "render"].

Definition __getattr__ (w : DMCWrapper) (name : string) : result pyval :=
  env_getattr (_env w) name.

(** Python's lookup: the instance, then the class and its bases, and
    [__getattr__] only when both fail. *)
Definition getattr (w : DMCWrapper) (name : string) : result attribute :=
  if bool_decide (name ∈ instance_dict w) then Ok (InstanceAttr name)
  else if bool_decide (name ∈ class_dict) || inherited name then Ok (ClassAttr name)
  else v ← __getattr__ w name; Ok (Forwarded v).

(** *** What the specification talks about *)

(** The time steps of [k] consecutive calls of [env.step(action)] and the
    environment after them. *)
Fixpoint sub_steps (k : nat) (env : E) (action : list spec_float)
  : list TimeStep * E :=
  match k with
  | O => ([], env)
  | S k' =>
      let '(ts, env) := env_step env action in
      let '(tss, env) := sub_steps k' env action in
      (ts :: tss, env)
  end.

(** The sum the loop accumulates: [reward += time_step.reward or 0]. *)
Definition total_reward (tss : list TimeStep) : pynum :=
  foldl py_add (PyInt 0) (lmap reward_or_0 tss).

(** The sum as the specification words it: every reward counts as
    itself, a [None] reward as 0. *)
Definition reward_or_none (ts : TimeStep) : pynum :=
  match reward ts with
  | Some r => PyFloat r
  | None => PyInt 0
  end.

Definition reward_sum (tss : list TimeStep) : pynum :=
  foldl py_add (PyInt 0) (lmap reward_or_none tss).

(** Channel 2 strictly exceeds channel 1 and channel 0. *)
Definition blue_dominant (p : Numpy.pixel) : bool :=
  (Numpy.ch1 p <? Numpy.ch2 p) && (Numpy.ch0 p <? Numpy.ch2 p).

(** [o] is the frame [a] with the pixels of [img] where channel 2
    dominates, in channel-first layout. *)
Definition masked_with (a img : Numpy.frame) (o : obs) : Prop :=
  ∃ out, o = Pixels out ∧ length out = 3%nat ∧
    ∀ c i j, Numpy.at3 out c i j =
      (p ← Numpy.pix a i j; q ← Numpy.pix img i j;
       Some (Numpy.chan c (if blue_dominant p then q else p))).

(** A wrapper in pixel mode advertises the space
    [Box(low=0, high=255, shape=[3, height, width], dtype=uint8)]. *)
Definition advertises_pixels (w : DMCWrapper) : Prop :=
  _from_pixels w = true ∧ 0 <= _height w ∧ 0 <= _width w ∧
  ∃ s, observation_space w
       = Gym.PixelSpace (Gym.MkPixelBox 0 255 [3; _height w; _width w] s).

(** What the wrapper relies on: the renderer returns a [uint8] frame of
    the requested size, and the background images are [uint8]. *)
Definition renderer_contract : Prop :=
  ∀ env h wd c,
    Numpy.has_shape2 (physics_render env h wd c) (Z.to_nat h) (Z.to_nat wd)
    ∧ Numpy.uint8_frame (physics_render env h wd c).

Definition source_contract : Prop :=
  ∀ s n, Numpy.uint8_frame (source_image s n).

(** The background generator that a distractor type names, if any. *)
Definition strategy (ty : string) (shape2d : Z * Z) (files : list string)
    (total_frames : option Z) : option source :=
  if String.eqb ty "color" then Some (RandomColorSource shape2d)
  else if String.eqb ty "noise" then Some (NoiseSource shape2d)
  else if String.eqb ty "images" then
    Some (RandomImageSource shape2d files true total_frames)
  else if String.eqb ty "video" then
    Some (RandomVideoSource shape2d files true total_frames)
  else None.

(** A wrapper in pixel mode with a distractor and its source. *)
Definition distracted (w : DMCWrapper) : Prop :=
  _from_pixels w = true ∧ is_Some (_img_source w) ∧ is_Some (_bg_source w).

(** The frame [_get_obs] renders in environment state [env]. *)
Definition rendered (w : DMCWrapper) (env : E) : Numpy.frame :=
  physics_render env (_height w) (_width w) (_camera_id w).

(** The image the background source hands out next. *)
Definition next_image (bg : bg_state) : Numpy.frame :=
  source_image (bg_source bg) (bg_drawn bg).

End Wrapper.

(** ** A small control suite on which the model runs

    The environment is a step counter; an episode ends at its third
    step.  The renderer and the background sources produce frames of the
    requested size. *)

Module Toy.

Definition grid (h w : Z) (f : Z -> Z -> Numpy.pixel) : Numpy.frame :=
  (fun i => (fun j => f i j) <$> seqZ 0 w) <$> seqZ 0 h.

Definition render (env : nat) (h w c : Z) : Numpy.frame :=
  grid h w (fun i j =>
    Numpy.Pixel ((40 * i) mod 256) ((90 * j) mod 256)
                ((50 + 20 * c + Z.of_nat env) mod 256)).

Definition shape_of (s : source) : Z * Z :=
  match s with
  | RandomColorSource sh | NoiseSource sh
  | RandomImageSource sh _ _ _ | RandomVideoSource sh _ _ _ => sh
  end.

Definition image (s : source) (n : nat) : Numpy.frame :=
  grid (shape_of s).1 (shape_of s).2 (fun i j =>
    let v := (7 + Z.of_nat n + i + j) mod 256 in Numpy.Pixel v v v).

Definition half : spec_float := Float.f64 1 (-1).

Definition time_step (n : nat) : TimeStep :=
  MkTimeStep (if (3 <=? n)%nat then LAST else MID)
    (if (n =? 2)%nat then None else Some half) (Some (Float.f64 1 0))
    [("position", NdArray (Numpy.Axis [Numpy.Axis [Numpy.Item half; Numpy.Item half];
                                       Numpy.Axis [Numpy.Item half; Numpy.Item half]]));
     ("height", Scalar (Float.f64 (Z.of_nat n) 0))].

Definition attr (env : nat) (name : string) : result pyval :=
  if String.eqb name "physics" then Ok (PyStr "Physics")
  else Raise (AttributeError name).

Definition suite (aspec : ArraySpec) : ControlSuite nat := {|
  suite_load := fun _ _ _ _ _ => Ok 0%nat;
  action_spec := fun _ => aspec;
  observation_spec := fun _ =>
    [("position", Array [2; 2] float64); ("height", Array [] float64)];
  env_step := fun n _ => (time_step (S n), S n);
  env_reset := fun _ =>
    (MkTimeStep FIRST None None (observation (time_step 0)), 0%nat);
  get_state := fun n => [Float.f64 (Z.of_nat n) 0];
  physics_render := render;
  env_getattr := attr;
  inherited := fun name => String.eqb name "close";
  glob_expanduser := fun pattern =>
    if String.eqb pattern "~/bg/*.png" then ["/home/u/bg/a.png"] else [];
  source_image := image
|}.

(** An actuator with controls in [-2, 2]. *)
Definition actuator : ArraySpec :=
  BoundedArray [1] float64 [Float.f64 (-2) 0] [Float.f64 2 0].

(** The [float64] number written [0.2]. *)
Definition two_tenths : spec_float := Float.div64 (Float.f64 2 0) (Float.f64 10 0).

(** An actuator with controls in [-1.0, 0.2]. *)
Definition lopsided_actuator : ArraySpec :=
  BoundedArray [1] float64 [Float.f64 (-1) 0] [two_tenths].

(** An actuator without limits. *)
Definition free_actuator : ArraySpec := Array [1] float64.

Definition seeded : option (gmap string pyval) :=
  Some {[ "random" := PyNum (PyInt 7) ]}.

(** [DMCWrapper('cartpole', 'swingup', '~/bg/*.png', ty, 10,
    task_kwargs={'random': 7}, from_pixels=..., height=2, width=3,
    camera_id=1, frame_skip=...)] *)
Definition make (aspec : ArraySpec) (ty : option string) (from_pixels : bool)
    (frame_skip : Z) : result (@DMCWrapper nat) :=
  @__init__ nat (suite aspec) "cartpole" "swingup" "~/bg/*.png" ty (Some 10)
    seeded false from_pixels 2 3 1 frame_skip None.

Definition blank : @DMCWrapper nat :=
  MkWrapper false 0 0 0 0 None 0%nat (Gym.full_box Float.neg_inf Float.inf 0)
    (Gym.full_box Float.neg_inf Float.inf 0)
    (Gym.FloatSpace (Gym.full_box Float.neg_inf Float.inf 0))
    (Gym.full_box Float.neg_inf Float.inf 0) None.

Definition built (r : result (@DMCWrapper nat)) : @DMCWrapper nat :=
  match r with Ok w => w | Raise _ => blank end.

(** Pixel observations over a solid-color background, four frames a step. *)
Definition pixel_env : @DMCWrapper nat :=
  built (make actuator (Some "color") true 4).

(** State observations, no distractor. *)
Definition state_env : @DMCWrapper nat :=
  built (make actuator None false 4).

(** State observations over the lopsided actuator. *)
Definition lopsided_env : @DMCWrapper nat :=
  built (make lopsided_actuator None false 1).

(** State observations over the actuator without limits. *)
Definition free_env : @DMCWrapper nat :=
  built (make free_actuator None false 1).

End Toy.


(** ** Notions used by the further properties *)

(** Finite numbers, the zeros among them. *)
Definition is_finite (x : spec_float) : bool :=
  match x with
  | S754_zero _ | S754_finite _ _ _ => true
  | S754_infinity _ | S754_nan => false
  end.

(** The same number: equal, or both a zero. *)
Definition same_number (x y : spec_float) : Prop :=
  x = y ∨ (Float.is_zero x = true ∧ Float.is_zero y = true).

(** A [float32] number: widening it and casting it back gives it again. *)
Definition is_float32 (x : spec_float) : Prop :=
  Float.to32 (Float.to64 x) = x.

(** [prod(s.shape)] *)
Definition spec_dim (s : ArraySpec) : nat :=
  Z.to_nat (foldr Z.mul 1 (spec_shape s)).

(** A spec without bounds, of a floating-point dtype. *)
Definition is_unbounded (s : ArraySpec) : bool :=
  match s with
  | Array _ dt => is_float dt
  | BoundedArray _ _ _ _ => false
  end.

(** The number of elements of the first [i] values of a dictionary. *)
Definition offset (dict : list (string * obs_value)) (i : nat) : nat :=
  sum_list (lmap (fun kv => value_size kv.2) (take i dict)).


Section Reseeding.
Context {E : Type} `{!ControlSuite E}.



(** The wrapper after one observation: the environment is [env], and
    in pixel mode with a distractor one more image has been drawn. *)
Definition observed (w : @DMCWrapper E) (env : E) : @DMCWrapper E :=
  match _from_pixels w, _img_source w, _bg_source w with
  | true, Some _, Some bg =>
      with_bg (with_env w env) (MkBg (bg_source bg) (S (bg_drawn bg)))
  | _, _, _ => with_env w env
  end.

End Reseeding.

(** Variants of the small suite. *)

Module Variants.

(** Background images one row taller than asked for. *)
Definition tall_image (s : source) (n : nat) : Numpy.frame :=
  Toy.image s n ++ [[]].

Definition misfit : ControlSuite nat := {|
  suite_load := @suite_load nat (Toy.suite Toy.actuator);
  action_spec := @action_spec nat (Toy.suite Toy.actuator);
  observation_spec := @observation_spec nat (Toy.suite Toy.actuator);
  env_step := @env_step nat (Toy.suite Toy.actuator);
  env_reset := @env_reset nat (Toy.suite Toy.actuator);
  get_state := @get_state nat (Toy.suite Toy.actuator);
  physics_render := Toy.render;
  env_getattr := Toy.attr;
  inherited := @inherited nat (Toy.suite Toy.actuator);
  glob_expanduser := @glob_expanduser nat (Toy.suite Toy.actuator);
  source_image := tall_image
|}.

(** An environment that observes nothing. *)
Definition blind : ControlSuite nat := {|
  suite_load := @suite_load nat (Toy.suite Toy.actuator);
  action_spec := @action_spec nat (Toy.suite Toy.actuator);
  observation_spec := fun _ => [("position", Array [2; 2] float64)];
  env_step := fun n _ =>
    (MkTimeStep MID (Some Toy.half) (Some Toy.half) [], S n);
  env_reset := fun _ => (MkTimeStep FIRST None None [], 0%nat);
  get_state := @get_state nat (Toy.suite Toy.actuator);
  physics_render := Toy.render;
  env_getattr := Toy.attr;
  inherited := @inherited nat (Toy.suite Toy.actuator);
  glob_expanduser := @glob_expanduser nat (Toy.suite Toy.actuator);
  source_image := Toy.image
|}.

(** State observations with [frame_skip=0]. *)
Definition frozen_env : @DMCWrapper nat :=
  Toy.built (Toy.make Toy.actuator None false 0).

(** Pixel observations over noise, built on the misfit suite. *)
Definition misfit_env : @DMCWrapper nat :=
  Toy.built (@__init__ nat misfit "cartpole" "swingup" "~/bg/*.png"
               (Some "noise") None Toy.seeded false true 2 3 1 1 None).

(** State observations of the blind environment. *)
Definition blind_env : @DMCWrapper nat :=
  Toy.built (@__init__ nat blind "cartpole" "swingup" "~/bg/*.png"
               None None Toy.seeded false false 2 3 1 1 None).

(** Pixel observations without a distractor. *)
Definition plain_pixel_env : @DMCWrapper nat :=
  Toy.built (Toy.make Toy.actuator None true 2).

End Variants.


(** * Properties *)

(** ** Facts about masked indexing *)

Section Masking.
Context {A : Type}.
Implicit Types (m : list bool) (row vals rest : list A).

Lemma same_shape_Forall2 {B C} (x : list (list B)) (y : list (list C)) :
  Numpy.same_shape x y = true <-> Forall2 (fun r s => length r = length s) x y.
Proof.
  unfold Numpy.same_shape. rewrite andb_true_iff, Nat.eqb_eq. split.
  - intros [Hlen Hall]. revert y Hlen Hall.
    induction x as [|r x IH]; intros [|s y] Hlen Hall; simplify_eq/=; [constructor|].
    apply andb_true_iff in Hall as [Hrs Hall]. apply Nat.eqb_eq in Hrs.
    constructor; auto.
  - induction 1 as [|r s x y Hrs _ [IH1 IH2]]; [done|]. simpl. split; [lia|].
    apply andb_true_iff. split; [by apply Nat.eqb_eq | done].
Qed.

Lemma put_select m : forall row brow rest,
  length row = length m -> length brow = length m ->
  Numpy.put m row (Numpy.select m brow ++ rest) = (Numpy.choose m brow row, rest).
Proof.
  induction m as [|b m IH]; intros [|x row] [|q brow] rest Hr Hb; simplify_eq/=; [done|].
  destruct b; simpl; rewrite IH by done; done.
Qed.

Lemma length_select {B} m : forall (row : list A) (other : list B),
  length row = length m -> length other = length m ->
  length (Numpy.select m row) = length (Numpy.select m other).
Proof.
  induction m as [|b m IH]; intros [|x row] [|y other] Hr Ho; simplify_eq/=; [done|].
  destruct b; simpl; auto.
Qed.

Lemma put_rows_select (mask : list (list bool)) : forall (a b : list (list A)),
  Forall2 (fun r s => length r = length s) mask a ->
  Forall2 (fun r s => length r = length s) mask b ->
  Numpy.put_rows mask a (concat (zip_with Numpy.select mask b)) = Numpy.where_mask mask b a.
Proof.
  induction mask as [|mr mask IH]; intros a b Ha Hb.
  - by inversion Ha.
  - inversion Ha as [|? row ? a' Hrow Ha']; inversion Hb as [|? brow ? b' Hbrow Hb'].
    simplify_eq/=. rewrite put_select by done. by rewrite (IH a' b').
Qed.

Lemma count_select (mask : list (list bool)) : forall (b : list (list A)),
  Forall2 (fun r s => length r = length s) mask b ->
  length (concat (zip_with Numpy.select mask b)) = Numpy.count_true mask.
Proof.
  unfold Numpy.count_true.
  induction mask as [|mr mask IH]; intros b Hb; inversion Hb as [|? brow ? b' Hbrow Hb'];
    simplify_eq/=; [done|].
  rewrite !length_app, (IH b') by done. f_equal. by apply length_select.
Qed.

Lemma pix_where_mask (mask : list (list bool)) (a b : list (list A)) i j :
  Numpy.pix (Numpy.where_mask mask b a) i j =
  c ← Numpy.pix mask i j; q ← Numpy.pix b i j; p ← Numpy.pix a i j;
  Some (if c : bool then q else p).
Proof.
  unfold Numpy.pix, Numpy.where_mask, Numpy.choose.
  rewrite lookup_zip_with, lookup_zip_with.
  destruct (mask !! i) as [mr|]; simpl; [|done].
  destruct (b !! i) as [brow|]; simpl.
  2:{ by destruct (mr !! j). }
  destruct (a !! i) as [row|]; simpl.
  2:{ destruct (mr !! j); simpl; [|done]. by destruct (brow !! j). }
  rewrite lookup_zip_with, lookup_zip_with.
  destruct (mr !! j); simpl; [|done].
  destruct (brow !! j); simpl; [|done].
  by destruct (row !! j).
Qed.

End Masking.

(** The mask is the pointwise test [blue_dominant]. *)
Lemma dmc_mask_fmap (a : Numpy.frame) :
  dmc_mask a = lmap (lmap blue_dominant) a.
Proof.
  unfold dmc_mask, Numpy.logical_and, Numpy.greater, Numpy.plane.
  induction a as [|row a IH]; [done|]. csimpl. f_equal; [|exact IH].
  clear IH. induction row as [|p row IH]; [done|]. csimpl. by rewrite IH.
Qed.

Lemma dmc_mask_shape (a : Numpy.frame) :
  Forall2 (fun r s => length r = length s) (dmc_mask a) a.
Proof.
  rewrite dmc_mask_fmap. induction a as [|row a IH]; [constructor|].
  csimpl. constructor; [apply length_fmap | exact IH].
Qed.

Lemma pix_dmc_mask (a : Numpy.frame) i j :
  Numpy.pix (dmc_mask a) i j = blue_dominant <$> Numpy.pix a i j.
Proof.
  rewrite dmc_mask_fmap. unfold Numpy.pix. rewrite list_lookup_fmap.
  destruct (a !! i) as [row|]; csimpl; [|done]. by rewrite list_lookup_fmap.
Qed.

Lemma Forall2_length_sym {B C} (x : list (list B)) (y : list (list C)) :
  Forall2 (fun r s => length r = length s) x y ->
  Forall2 (fun r s => length r = length s) y x.
Proof. induction 1; constructor; auto. Qed.

Lemma Forall2_length_trans {B C D} (x : list (list B)) (y : list (list C))
    (z : list (list D)) :
  Forall2 (fun r s => length r = length s) x y ->
  Forall2 (fun r s => length r = length s) y z ->
  Forall2 (fun r s => length r = length s) x z.
Proof.
  intros Hxy. revert z. induction Hxy; intros z Hyz; inversion Hyz; simplify_eq;
    constructor; [congruence | auto].
Qed.

(** Reading the background under the mask and writing it back into the
    frame replaces exactly the masked pixels. *)
Lemma masked_assignment (a bg : Numpy.frame) :
  Numpy.same_shape bg a = true ->
  exists vals,
    Numpy.getitem_mask bg (dmc_mask a) = Ok vals
    /\ Numpy.setitem_mask a (dmc_mask a) vals
       = Ok (Numpy.where_mask (dmc_mask a) bg a).
Proof.
  intros Hshape. apply same_shape_Forall2 in Hshape.
  pose proof (dmc_mask_shape a) as Hma.
  assert (Hmb : Forall2 (fun r s => length r = length s) (dmc_mask a) bg)
    by (eapply Forall2_length_trans; [exact Hma | by apply Forall2_length_sym]).
  unfold Numpy.getitem_mask, Numpy.setitem_mask.
  rewrite (proj2 (same_shape_Forall2 _ _) Hmb). eexists. split; [done|].
  rewrite (proj2 (same_shape_Forall2 _ _) Hma). simpl.
  rewrite count_select by done. rewrite Nat.eqb_refl.
  by rewrite put_rows_select.
Qed.

Lemma at3_transpose_201 (a : Numpy.frame) c i j :
  Numpy.at3 (Numpy.transpose_201 a) c i j = Numpy.chan c <$> Numpy.pix a i j.
Proof.
  unfold Numpy.at3, Numpy.transpose_201, Numpy.pix, Numpy.plane.
  destruct c; csimpl; rewrite list_lookup_fmap;
    (destruct (a !! i) as [row|]; csimpl; [|done]); by rewrite list_lookup_fmap.
Qed.

Lemma if_same {B} (b : bool) (x : B) : (if b then x else x) = x.
Proof. by destruct b. Qed.

Lemma int_or_same (x : Z) : int_or (Some x) x = x.
Proof. apply if_same. Qed.


(** ** Shapes and value ranges of frames *)

Section Frames.
Context {A : Type}.

Lemma choose_Forall (P : A -> Prop) (m : list bool) : forall b a : list A,
  Forall P b -> Forall P a -> Forall P (Numpy.choose m b a).
Proof.
  unfold Numpy.choose.
  induction m as [|c m IH]; intros b a Hb Ha; [constructor|].
  destruct Hb as [|q b Hq Hb]; [constructor|].
  destruct Ha as [|p a Hp Ha]; [constructor|].
  csimpl. constructor; [by destruct c | by apply IH].
Qed.

Lemma where_mask_Forall (P : A -> Prop) (mask : list (list bool)) :
  forall b a : list (list A),
  Forall (Forall P) b -> Forall (Forall P) a ->
  Forall (Forall P) (Numpy.where_mask mask b a).
Proof.
  unfold Numpy.where_mask.
  induction mask as [|mr mask IH]; intros b a Hb Ha; [constructor|].
  destruct Hb as [|brow b Hbrow Hb]; [constructor|].
  destruct Ha as [|row a Hrow Ha]; [constructor|].
  csimpl. constructor; [by apply choose_Forall | by apply IH].
Qed.

Lemma length_choose (m : list bool) : forall b a : list A,
  length b = length m -> length a = length m ->
  length (Numpy.choose m b a) = length a.
Proof.
  unfold Numpy.choose.
  induction m as [|c m IH]; intros [|q b] [|p a] Hb Ha; simplify_eq/=; [done|].
  f_equal. by apply IH.
Qed.

Lemma where_mask_shape (mask : list (list bool)) : forall b a : list (list A),
  Forall2 (fun r s => length r = length s) mask a ->
  Forall2 (fun r s => length r = length s) mask b ->
  Forall2 (fun r s => length r = length s) (Numpy.where_mask mask b a) a.
Proof.
  unfold Numpy.where_mask.
  induction mask as [|mr mask IH]; intros b a Ha Hb;
    inversion Ha as [|? row ? a' Hrow Ha']; inversion Hb as [|? brow ? b' Hbrow Hb'];
    simplify_eq/=; constructor; [|by apply IH].
  by apply length_choose.
Qed.

Lemma has_shape2_transfer {B} (x : list (list A)) (y : list (list B)) h w :
  Forall2 (fun r s => length r = length s) x y ->
  Numpy.has_shape2 y h w -> Numpy.has_shape2 x h w.
Proof.
  intros Hxy [Hlen Hrows]. split.
  - by rewrite (Forall2_length _ _ _ Hxy).
  - clear Hlen. induction Hxy as [|r s x y Hrs _ IH]; [constructor|].
    inversion Hrows; simplify_eq. constructor; [congruence | auto].
Qed.

End Frames.

Lemma plane_shape c (a : Numpy.frame) :
  Forall2 (fun r s => length r = length s) (Numpy.plane c a) a.
Proof.
  unfold Numpy.plane. induction a as [|row a IH]; [constructor|].
  csimpl. constructor; [apply length_fmap | exact IH].
Qed.

Lemma plane_range c (a : Numpy.frame) :
  Numpy.uint8_frame a ->
  forallb (forallb (fun v => (0 <=? v) && (v <=? 255))) (Numpy.plane c a) = true.
Proof.
  unfold Numpy.plane, Numpy.uint8_frame, Numpy.uint8.
  induction 1 as [|row a Hrow _ IH]; [done|]. csimpl.
  rewrite IH, andb_true_r. clear IH.
  induction Hrow as [|p row (H0 & H1 & H2) _ IH]; [done|]. csimpl.
  rewrite IH, andb_true_r. destruct c; simpl; lia.
Qed.

Lemma plane_rows c (a : Numpy.frame) h w :
  Numpy.has_shape2 a h w ->
  (length (Numpy.plane c a) =? h)%nat && Gym.rows_of_width w (Numpy.plane c a) = true.
Proof.
  intros Ha. apply (has_shape2_transfer _ _ _ _ (plane_shape c a)) in Ha as [Hlen Hrows].
  apply andb_true_iff. split; [by apply Nat.eqb_eq|].
  unfold Gym.rows_of_width. clear Hlen.
  induction Hrows as [|row p Hrow _ IH]; [done|].
  simpl. rewrite IH, andb_true_r. by apply Nat.eqb_eq.
Qed.

(** A [uint8] frame of the advertised size, put channel first, lies in
    the pixel space. *)
Lemma transpose_in_pixel_box (a : Numpy.frame) h w s :
  0 <= h -> 0 <= w ->
  Numpy.has_shape2 a (Z.to_nat h) (Z.to_nat w) -> Numpy.uint8_frame a ->
  Gym.pixel_contains (Gym.MkPixelBox 0 255 [3; h; w] s) (Numpy.transpose_201 a) = true.
Proof.
  intros Hh Hw Hshape Hrange. unfold Gym.pixel_contains, Numpy.transpose_201. simpl.
  assert (Hp : forall c,
    (Z.of_nat (length (Numpy.plane c a)) =? h)
    && Gym.rows_of_width (Z.to_nat w) (Numpy.plane c a) = true).
  { intros c. pose proof (plane_rows c a _ _ Hshape) as Hr.
    apply andb_true_iff in Hr as [Hlen Hr]. apply Nat.eqb_eq in Hlen.
    rewrite Hr, andb_true_r. apply Z.eqb_eq. lia. }
  rewrite !Hp, !plane_range by done. simpl. rewrite andb_true_r. apply Z.leb_le. lia.
Qed.

(** ** Sums of rewards *)

#[local] Arguments Float.add64 : simpl never.
#[local] Arguments Float.f64 : simpl never.

Lemma tracks_num_eq c s : tracks c s -> num_eq c s.
Proof.
  intros [[-> [-> | [b ->]]] | (f & f' & -> & -> & [-> | [Hf Hf']])];
    unfold num_eq; simpl; auto.
Qed.

Lemma add64_zero_r (f : spec_float) (b : bool) :
  Float.add64 f (S754_zero b) = f
  \/ (Float.is_zero f = true /\ Float.is_zero (Float.add64 f (S754_zero b)) = true).
Proof. destruct f as [[]|[]| |]; destruct b; simpl; auto. Qed.

Lemma add64_zero_l (f : spec_float) (b : bool) :
  Float.is_zero f = false -> Float.add64 (S754_zero b) f = f.
Proof. by destruct f as [|[]| |]. Qed.

Lemma add64_zeros (f g : spec_float) :
  Float.is_zero f = true -> Float.is_zero g = true ->
  Float.is_zero (Float.add64 f g) = true.
Proof. destruct f as [[]| | |], g as [[]| | |]; done. Qed.

Lemma f64_zero : Float.f64 0 0 = S754_zero false.
Proof. reflexivity. Qed.

Lemma tracks_add c s (t : TimeStep) :
  tracks c s -> tracks (py_add c (reward_or_0 t)) (py_add s (reward_or_none t)).
Proof.
  unfold reward_or_0, reward_or_none, py_or.
  intros [[-> Hs] | (f & f' & -> & -> & Hff')].
  - destruct (reward t) as [r|]; csimpl.
    + destruct (Float.is_zero r) eqn:Hr; simpl.
      * left. split; [done|]. right.
        destruct r as [b| | |]; try done.
        destruct Hs as [-> | [b' ->]]; simpl; rewrite ?f64_zero;
          destruct b; try destruct b'; simpl; eauto.
      * right. exists r, r.
        destruct Hs as [-> | [b' ->]]; simpl; rewrite ?f64_zero;
          rewrite !add64_zero_l by done; auto.
    + left. split; [done|]. destruct Hs as [-> | [[] ->]]; simpl; unfold zeroish; eauto.
  - right. destruct (reward t) as [r|]; csimpl.
    + destruct (Float.is_zero r) eqn:Hr; simpl; rewrite ?f64_zero.
      * destruct r as [b| | |]; try done. do 2 eexists. split; [done|]. split; [done|].
        destruct Hff' as [-> | [Hf Hf']].
        -- destruct (add64_zero_r f' false) as [-> | [Hz Hz']];
             destruct (add64_zero_r f' b) as [-> | [Hz2 Hz2']]; auto.
        -- right. split; by apply add64_zeros.
      * do 2 eexists. split; [done|]. split; [done|].
        destruct Hff' as [-> | [Hf Hf']]; [by left|]. left.
        destruct f as [bf| | |]; try done. destruct f' as [bf'| | |]; try done.
        by rewrite !add64_zero_l.
    + rewrite ?f64_zero. do 2 eexists. split; [done|]. split; [done|].
      destruct Hff' as [-> | [Hf Hf']]; [by left|].
      right. split; by apply add64_zeros.
Qed.

Lemma tracks_sum (tss : list TimeStep) : forall c s,
  tracks c s ->
  tracks (foldl py_add c (lmap reward_or_0 tss))
         (foldl py_add s (lmap reward_or_none tss)).
Proof.
  induction tss as [|t tss IH]; intros c s Hcs; [done|].
  csimpl. apply IH. by apply tracks_add.
Qed.

(** The accumulated reward is the sum of the rewards, [None] counting
    as 0. *)
Lemma total_reward_sum (tss : list TimeStep) :
  num_eq (total_reward tss) (reward_sum tss).
Proof.
  apply tracks_num_eq, tracks_sum. left. split; [done | by left].
Qed.

(** ** Flattening *)

Lemma ndarray_induction {A} (P : Numpy.ndarray A -> Prop) :
  (forall x, P (Numpy.Item x)) ->
  (forall rows, Forall P rows -> P (Numpy.Axis rows)) ->
  forall a, P a.
Proof.
  intros HItem HAxis.
  refine (fix go (a : Numpy.ndarray A) : P a :=
            match a with
            | Numpy.Item x => HItem x
            | Numpy.Axis rows =>
                HAxis rows
                  ((fix go_rows (l : list (Numpy.ndarray A)) : Forall P l :=
                      match l with
                      | [] => Forall_nil_2 P
                      | r :: l' => Forall_cons_2 P r l' (go r) (go_rows l')
                      end) rows)
            end).
Qed.

Lemma length_ravel {A} (a : Numpy.ndarray A) :
  length (Numpy.ravel a) = Numpy.size a.
Proof.
  induction a as [x|rows IH] using ndarray_induction; [done|].
  simpl. induction IH as [|r rows Hr _ IH]; [done|].
  csimpl. rewrite length_app. by rewrite Hr, IH.
Qed.

Lemma length_flat (v : obs_value) : length (flat v) = value_size v.
Proof. destruct v; [done | apply length_ravel]. Qed.

Lemma pieces_foldl (obs : list (string * obs_value)) : forall acc,
  foldl (fun pieces kv => pieces ++ [flat kv.2]) acc obs
  = acc ++ lmap (fun kv => flat kv.2) obs.
Proof.
  induction obs as [|kv obs IH]; intros acc; csimpl.
  - by rewrite app_nil_r.
  - by rewrite IH, <- app_assoc.
Qed.

Lemma length_concat_pieces (obs : list (string * obs_value)) :
  length (concat (lmap (fun kv => flat kv.2) obs))
  = sum_list (lmap (fun kv => value_size kv.2) obs).
Proof.
  induction obs as [|kv obs IH]; [done|].
  csimpl. by rewrite length_app, length_flat, IH.
Qed.

(** ** The wrapper *)

Section Properties.
Context {E : Type} `{!ControlSuite E}.
Implicit Types (w : @DMCWrapper E) (env : E) (ts : TimeStep).

Lemma masked_with_where (a img : Numpy.frame) :
  Numpy.same_shape img a = true ->
  masked_with a img
    (Pixels (Numpy.transpose_201 (Numpy.where_mask (dmc_mask a) img a))).
Proof.
  intros Hshape. eexists. split; [done|]. split; [done|]. intros c i j.
  rewrite at3_transpose_201, pix_where_mask, pix_dmc_mask.
  destruct (Numpy.pix a i j) as [p|] eqn:Hp; csimpl.
  - destruct (Numpy.pix img i j) as [q|]; csimpl; [|done].
    by destruct (blue_dominant p).
  - done.
Qed.

(** In pixel mode with a distractor, [_get_obs] returns the masked
    frame and advances the background source. *)
Lemma get_obs_pixels w time_step ty bg :
  _from_pixels w = true -> _img_source w = Some ty -> _bg_source w = Some bg ->
  Numpy.same_shape (next_image bg) (rendered w (_env w)) = true ->
  _get_obs w time_step
  = Ok (Pixels (Numpy.transpose_201
                  (Numpy.where_mask (dmc_mask (rendered w (_env w)))
                     (next_image bg) (rendered w (_env w)))),
        with_bg w (MkBg (bg_source bg) (S (bg_drawn bg)))).
Proof.
  intros Hpix Hty Hbg Hshape.
  destruct (masked_assignment _ _ Hshape) as (vals & Hget & Hset).
  unfold _get_obs, _render, get_image. rewrite Hpix, Hty, Hbg. csimpl.
  rewrite !if_same. fold (rendered w (_env w)). fold (next_image bg).
  rewrite Hget. csimpl. by rewrite Hset.
Qed.

(** Without a distractor the frame is only transposed. *)
Lemma get_obs_plain w time_step :
  _from_pixels w = true -> _img_source w = None ->
  _get_obs w time_step
  = Ok (Pixels (Numpy.transpose_201 (rendered w (_env w))), w).
Proof.
  intros Hpix Hty. unfold _get_obs, _render. rewrite Hpix, Hty. csimpl.
  by rewrite !if_same.
Qed.

(** What a successful [step] did. *)
Lemma step_inv w action o r d x w' :
  step w action = Ok (o, r, d, x, w') ->
  exists act env time_step,
    Gym.contains (_norm_action_space w) action = true
    /\ _convert_action w action = Ok act
    /\ Gym.contains (_true_action_space w) act = true
    /\ frame_loop (Z.to_nat (_frame_skip w)) (_env w) act (PyInt 0) None
       = (env, r, Some time_step)
    /\ _get_obs (with_env w env) (Some time_step) = Ok (o, w')
    /\ d = last time_step
    /\ x = MkExtra (get_state (_env w)) (discount time_step).
Proof.
  unfold step, py_assert. intros Hstep.
  destruct (Gym.contains (_norm_action_space w) action) eqn:Hnorm;
    csimpl in Hstep; [|done].
  destruct (_convert_action w action) as [act|] eqn:Hact; csimpl in Hstep; [|done].
  destruct (Gym.contains (_true_action_space w) act) eqn:Htrue;
    csimpl in Hstep; [|done].
  destruct (frame_loop _ _ _ _ _) as [[env rew] [ts'|]] eqn:Hloop; [|done].
  destruct (_get_obs _ _) as [[o1 w1]|] eqn:Hobs; csimpl in Hstep; [|done].
  simplify_eq. by exists act, env, ts'.
Qed.

(** Whatever [step] returns as observation, [_get_obs] produced it in
    the environment state [step] leaves behind. *)
Lemma step_returns_get_obs w action o r d x w' :
  step w action = Ok (o, r, d, x, w') ->
  exists env time_step,
    _get_obs (with_env w env) (Some time_step) = Ok (o, w').
Proof.
  intros Hstep.
  apply step_inv in Hstep as (act & env & ts & _ & _ & _ & _ & Hobs & _).
  by exists env, ts.
Qed.

Lemma get_obs_pixels_shape w time_step ty bg o w' :
  _from_pixels w = true -> _img_source w = Some ty -> _bg_source w = Some bg ->
  _get_obs w time_step = Ok (o, w') ->
  Numpy.same_shape (next_image bg) (rendered w (_env w)) = true.
Proof.
  intros Hpix Hty Hbg.
  unfold _get_obs, _render, get_image. rewrite Hpix, Hty, Hbg. csimpl.
  rewrite !if_same. fold (rendered w (_env w)). fold (next_image bg).
  unfold Numpy.getitem_mask.
  destruct (Numpy.same_shape (dmc_mask _) (next_image bg)) eqn:Hshape; [|done].
  intros _. apply same_shape_Forall2. apply same_shape_Forall2 in Hshape.
  eapply Forall2_length_trans; [by apply Forall2_length_sym | apply dmc_mask_shape].
Qed.

(** The observations of a wrapper in pixel mode with a distractor. *)
Lemma masked_observations w ty bg :
  _from_pixels w = true -> _img_source w = Some ty -> _bg_source w = Some bg ->
  (forall time_step o w',
     _get_obs w time_step = Ok (o, w') ->
     masked_with (rendered w (_env w)) (next_image bg) o)
  /\ (forall time_step,
        Numpy.same_shape (next_image bg) (rendered w (_env w)) = true ->
        exists o w', _get_obs w time_step = Ok (o, w'))
  /\ (forall o w',
        reset w = Ok (o, w') ->
        masked_with (rendered w (_env w')) (next_image bg) o)
  /\ (forall action o r d x w',
        step w action = Ok (o, r, d, x, w') ->
        masked_with (rendered w (_env w')) (next_image bg) o).
Proof.
  intros Hpix Hty Hbg.
  assert (Hget : forall w1 time_step o w',
            _from_pixels w1 = true -> _img_source w1 = Some ty ->
            _bg_source w1 = Some bg ->
            _get_obs w1 time_step = Ok (o, w') ->
            masked_with (rendered w1 (_env w1)) (next_image bg) o
            /\ _env w' = _env w1).
  { intros w1 time_step o w' H1 H2 H3 Hobs.
    pose proof (get_obs_pixels_shape _ _ _ _ _ _ H1 H2 H3 Hobs) as Hshape.
    rewrite (get_obs_pixels w1 time_step ty bg H1 H2 H3 Hshape) in Hobs.
    injection Hobs as <- <-. split; [by apply masked_with_where | done]. }
  split; [|split; [|split]].
  - intros time_step o w' Hobs. by eapply Hget.
  - intros time_step Hshape.
    rewrite (get_obs_pixels w time_step ty bg Hpix Hty Hbg Hshape). eauto.
  - unfold reset. intros o w'. destruct (env_reset (_env w)) as [ts env].
    intros Hobs. apply Hget in Hobs as [Hm Henv]; [|done..].
    rewrite Henv. exact Hm.
  - intros action o r d x w' Hstep.
    apply step_returns_get_obs in Hstep as (env & ts & Hobs).
    apply Hget in Hobs as [Hm Henv]; [|done..].
    rewrite Henv. exact Hm.
Qed.

(** What a successful construction did, block by block. *)
Lemma init_inv robot task files ty total kw vis fp h wd cam fs ekw w :
  __init__ robot task files ty total kw vis fp h wd cam fs ekw = Ok w ->
  exists kwargs env tas osp bg,
    check_seed kw = Ok kwargs
    /\ suite_load robot task kwargs vis ekw = Ok env
    /\ _spec_to_box [action_spec env] = Ok tas
    /\ make_observation_space fp h wd env = Ok osp
    /\ make_background ty files total h wd = Ok bg
    /\ w = seed (MkWrapper fp h wd cam fs ty env tas
                  (Gym.full_box (Float.f32 (-1) 0) (Float.f32 1 0)
                     (length (Gym.low tas)))
                  osp
                  (Gym.full_box Float.neg_inf Float.inf (length (get_state env)))
                  bg)
               (default (PyNum (PyInt 1)) (kwargs !! "random")).
Proof.
  unfold __init__. intros Hinit.
  destruct (check_seed kw) as [kwargs|] eqn:H1; csimpl in Hinit; [|done].
  destruct (suite_load _ _ _ _ _) as [env|] eqn:H2; csimpl in Hinit; [|done].
  destruct (_spec_to_box _) as [tas|] eqn:H3; csimpl in Hinit; [|done].
  destruct (make_observation_space _ _ _ _) as [osp|] eqn:H4; csimpl in Hinit; [|done].
  destruct (make_background _ _ _ _ _) as [bg|] eqn:H5; csimpl in Hinit; [|done].
  injection Hinit as <-. by exists kwargs, env, tas, osp, bg.
Qed.

Lemma transpose_shape3 (a : Numpy.frame) h wd :
  Numpy.has_shape2 a h wd -> Numpy.has_shape3 (Numpy.transpose_201 a) 3 h wd.
Proof.
  intros Ha. split; [done|]. unfold Numpy.transpose_201.
  repeat constructor;
    apply (has_shape2_transfer _ _ _ _ (plane_shape _ a) Ha).
Qed.

(** One observation of a wrapper in pixel mode. *)
Lemma get_obs_in_pixel_space w time_step o w' :
  renderer_contract -> source_contract -> advertises_pixels w ->
  _get_obs w time_step = Ok (o, w') ->
  in_space (observation_space w') o = true
  /\ (exists a, o = Pixels a
        /\ Numpy.has_shape3 a 3 (Z.to_nat (_height w)) (Z.to_nat (_width w)))
  /\ advertises_pixels w' /\ _env w' = _env w.
Proof.
  intros Hrender Hsource (Hpix & Hh & Hw & s & Hspace) Hobs.
  destruct (Hrender (_env w) (_height w) (_width w) (_camera_id w))
    as [Hshape Hrange]. fold (rendered w (_env w)) in Hshape, Hrange.
  destruct (_img_source w) as [ty|] eqn:Hty.
  - destruct (_bg_source w) as [bg|] eqn:Hbg.
    + pose proof (get_obs_pixels_shape _ _ _ _ _ _ Hpix Hty Hbg Hobs) as Hsame.
      rewrite (get_obs_pixels w time_step ty bg Hpix Hty Hbg Hsame) in Hobs.
      injection Hobs as <- <-.
      apply same_shape_Forall2 in Hsame.
      pose proof (dmc_mask_shape (rendered w (_env w))) as Hma.
      assert (Hmb : Forall2 (fun r s => length r = length s)
                      (dmc_mask (rendered w (_env w))) (next_image bg))
        by (eapply Forall2_length_trans; [exact Hma | by apply Forall2_length_sym]).
      pose proof (where_mask_shape _ _ _ Hma Hmb) as Hwhere.
      apply (has_shape2_transfer _ _ _ _ Hwhere) in Hshape.
      assert (Hvals : Numpy.uint8_frame
                (Numpy.where_mask (dmc_mask (rendered w (_env w)))
                   (next_image bg) (rendered w (_env w))))
        by (apply where_mask_Forall; [apply Hsource | exact Hrange]).
      split; [|split; [|split]].
      * unfold observation_space in *. simpl. rewrite Hspace. simpl.
        by apply transpose_in_pixel_box.
      * eexists. split; [done|]. by apply transpose_shape3.
      * repeat split; try done. by exists s.
      * done.
    + unfold _get_obs, _render, get_image in Hobs.
      rewrite Hpix, Hty, Hbg in Hobs. csimpl in Hobs.
      by destruct (env_getattr _ _).
  - rewrite (get_obs_plain w time_step Hpix Hty) in Hobs. injection Hobs as <- <-.
    split; [|split; [|split]].
    + unfold observation_space in *. rewrite Hspace. simpl.
      by apply transpose_in_pixel_box.
    + eexists. split; [done|]. by apply transpose_shape3.
    + repeat split; try done. by exists s.
    + done.
Qed.

Lemma make_observation_space_pixels h wd env osp :
  make_observation_space true h wd env = Ok osp ->
  0 <= h /\ 0 <= wd
  /\ osp = Gym.PixelSpace (Gym.MkPixelBox 0 255 [3; h; wd] None).
Proof.
  unfold make_observation_space.
  destruct ((h <? 0) || (wd <? 0)) eqn:Hneg; [done|].
  apply orb_false_iff in Hneg as [Hh Hw]. intros [= <-].
  apply Z.ltb_ge in Hh, Hw. done.
Qed.

(** C10. A wrapper constructed with [from_pixels] true advertises
    [Box(low=0, high=255, shape=[3, height, width], dtype=uint8)], and
    every observation [reset] and [step] return has shape
    (3, height, width) and lies in that space; the wrapper they leave
    behind advertises the same space. *)
Theorem pixel_observations_in_space :
  renderer_contract -> source_contract ->
  (forall robot task files ty total kw vis h wd cam fs ekw w,
     __init__ robot task files ty total kw vis true h wd cam fs ekw = Ok w ->
     advertises_pixels w /\ _height w = h /\ _width w = wd)
  /\ (forall w, advertises_pixels w ->
       (forall o w',
          reset w = Ok (o, w') ->
          in_space (observation_space w') o = true
          /\ (exists a, o = Pixels a
                /\ Numpy.has_shape3 a 3 (Z.to_nat (_height w)) (Z.to_nat (_width w)))
          /\ advertises_pixels w')
       /\ (forall action o r d x w',
             step w action = Ok (o, r, d, x, w') ->
             in_space (observation_space w') o = true
             /\ (exists a, o = Pixels a
                   /\ Numpy.has_shape3 a 3 (Z.to_nat (_height w)) (Z.to_nat (_width w)))
             /\ advertises_pixels w')).
Proof.
  intros Hrender Hsource. split.
  - intros robot task files ty total kw vis h wd cam fs ekw w Hinit.
    apply init_inv in Hinit
      as (kwargs & env & tas & osp & bg & _ & _ & _ & Hosp & _ & ->).
    apply make_observation_space_pixels in Hosp as (Hh & Hw & ->).
    repeat split; try done. by eexists.
  - intros w Hadv. split.
    + unfold reset. intros o w'. destruct (env_reset (_env w)) as [ts env].
      intros Hobs.
      apply (get_obs_in_pixel_space _ _ _ _ Hrender Hsource) in Hobs
        as (Hin & Ha & Hadv' & _); [done|].
      destruct Hadv as (? & ? & ? & s & ?). repeat split; try done. by exists s.
    + intros action o r d x w' Hstep.
      apply step_returns_get_obs in Hstep as (env & ts & Hobs).
      apply (get_obs_in_pixel_space _ _ _ _ Hrender Hsource) in Hobs
        as (Hin & Ha & Hadv' & _); [done|].
      destruct Hadv as (? & ? & ? & s & ?). repeat split; try done. by exists s.
Qed.

(** [_get_obs] changes at most the background source. *)
Lemma get_obs_state w time_step o w' :
  _get_obs w time_step = Ok (o, w') -> w' = w \/ exists bg, w' = with_bg w bg.
Proof.
  unfold _get_obs, _render, get_image, py_assert.
  destruct (_from_pixels w).
  - csimpl. destruct (_img_source w).
    + destruct (_bg_source w) as [bg|]; csimpl.
      * destruct (Numpy.getitem_mask _ _); csimpl; [|done].
        destruct (Numpy.setitem_mask _ _ _); csimpl; [|done].
        intros Heq. simplify_eq. eauto.
      * by destruct (env_getattr _ _).
    + csimpl. intros Heq. simplify_eq. by left.
  - destruct time_step; [|done].
    destruct (_flatten_obs _); csimpl; [|done]. intros Heq. simplify_eq. by left.
Qed.

Lemma get_obs_env w time_step o w' :
  _get_obs w time_step = Ok (o, w') -> _env w' = _env w.
Proof. intros Hobs. by apply get_obs_state in Hobs as [-> | [bg ->]]. Qed.

Lemma get_obs_img_source w time_step o w' :
  _get_obs w time_step = Ok (o, w') -> _img_source w' = _img_source w.
Proof. intros Hobs. by apply get_obs_state in Hobs as [-> | [bg ->]]. Qed.

(** *** The frame-skip loop *)

Lemma frame_loop_runs (n : nat) : forall env action rew prev,
  (1 <= n)%nat ->
  exists k tss ts env',
    (1 <= k <= n)%nat
    /\ length (tss ++ [ts]) = k
    /\ sub_steps k env action = (tss ++ [ts], env')
    /\ Forall (fun t => last t = false) tss
    /\ (k = n \/ last ts = true)
    /\ frame_loop n env action rew prev
       = (env', foldl py_add rew (lmap reward_or_0 (tss ++ [ts])), Some ts).
Proof.
  induction n as [|n IH]; intros env action rew prev Hn; [lia|].
  simpl. destruct (env_step env action) as [ts1 env1] eqn:Hstep.
  destruct (last ts1) eqn:Hlast.
  - exists 1%nat, [], ts1, env1. simpl. rewrite Hstep.
    repeat split; auto; lia.
  - destruct n as [|n].
    + exists 1%nat, [], ts1, env1. simpl. rewrite Hstep.
      repeat split; auto.
    + destruct (IH env1 action (py_add rew (reward_or_0 ts1)) (Some ts1))
        as (k & tss & ts & env' & Hk & Hlen & Hsub & Hmid & Hend & Hloop); [lia|].
      exists (S k), (ts1 :: tss), ts, env'.
      repeat split; try lia.
      * simpl. by rewrite Hlen.
      * simpl. by rewrite Hstep, Hsub.
      * by constructor.
      * destruct Hend as [-> | Hend]; auto.
      * exact Hloop.
Qed.

(** C3. For [frame_skip >= 1] the loop of [step] calls the environment
    [k] times with the one converted action, [1 <= k <= frame_skip]; no
    sub-step before the last one executed is final, and either all
    [frame_skip] sub-steps ran or the last one executed is final.  The
    reward returned is the sum of the rewards of the executed sub-steps,
    [None] counting as 0, and [done] is [last()] of the last one. *)
Theorem step_frame_skip w :
  1 <= _frame_skip w ->
  (forall act, exists k tss ts env,
     (1 <= k <= Z.to_nat (_frame_skip w))%nat
     /\ length (tss ++ [ts]) = k
     /\ sub_steps k (_env w) act = (tss ++ [ts], env)
     /\ Forall (fun t => last t = false) tss
     /\ (k = Z.to_nat (_frame_skip w) \/ last ts = true)
     /\ frame_loop (Z.to_nat (_frame_skip w)) (_env w) act (PyInt 0) None
        = (env, total_reward (tss ++ [ts]), Some ts))
  /\ (forall action o r d x w',
        step w action = Ok (o, r, d, x, w') ->
        exists act k tss ts,
          _convert_action w action = Ok act
          /\ (1 <= k <= Z.to_nat (_frame_skip w))%nat
          /\ length (tss ++ [ts]) = k
          /\ sub_steps k (_env w) act = (tss ++ [ts], _env w')
          /\ Forall (fun t => last t = false) tss
          /\ (k = Z.to_nat (_frame_skip w) \/ last ts = true)
          /\ r = total_reward (tss ++ [ts])
          /\ num_eq r (reward_sum (tss ++ [ts]))
          /\ d = last ts).
Proof.
  intros Hskip.
  assert (Hloop : forall act, exists k tss ts env,
     (1 <= k <= Z.to_nat (_frame_skip w))%nat
     /\ length (tss ++ [ts]) = k
     /\ sub_steps k (_env w) act = (tss ++ [ts], env)
     /\ Forall (fun t => last t = false) tss
     /\ (k = Z.to_nat (_frame_skip w) \/ last ts = true)
     /\ frame_loop (Z.to_nat (_frame_skip w)) (_env w) act (PyInt 0) None
        = (env, total_reward (tss ++ [ts]), Some ts)).
  { intros act. apply frame_loop_runs. lia. }
  split; [exact Hloop|].
  intros action o r d x w' Hstep.
  apply step_inv in Hstep
    as (act & env & ts' & _ & Hact & _ & Hrun & Hobs & -> & _).
  destruct (Hloop act) as (k & tss & ts & env1 & Hk & Hlen & Hsub & Hmid & Hend & Hrun').
  rewrite Hrun' in Hrun. injection Hrun as He Hr Hts. subst env r ts'.
  pose proof (get_obs_env _ _ _ _ Hobs) as Henv. simpl in Henv.
  exists act, k, tss, ts. rewrite Henv.
  repeat split; try done; try lia. apply total_reward_sum.
Qed.

(** *** State observations *)

Lemma flatten_obs_ok (dict : list (string * obs_value)) v :
  _flatten_obs dict = Ok v ->
  v = concat (lmap (fun kv => flat kv.2) dict).
Proof.
  unfold _flatten_obs, Numpy.concatenate. rewrite pieces_foldl, app_nil_l.
  destruct (lmap _ dict) eqn:Hpieces; [done|]. by intros [= <-].
Qed.

Lemma get_obs_flat w time_step :
  _from_pixels w = false ->
  _get_obs w (Some time_step)
  = (v ← _flatten_obs (observation time_step); Ok (Flat v, w)).
Proof. intros Hpix. unfold _get_obs. by rewrite Hpix. Qed.

(** C4. [_flatten_obs] returns the concatenation, in the order of the
    dictionary, of its values flattened: a scalar gives one element, an
    array its elements in row-major order; the length of the result is
    the sum of the sizes of the values.  It returns for every dictionary
    that is not empty, and with [from_pixels] false it is what [reset]
    and [step] return as observation. *)
Theorem flatten_obs_concatenates :
  (forall x, flat (Scalar x) = [x])
  /\ (forall a, flat (NdArray a) = Numpy.ravel a
                /\ length (Numpy.ravel a) = Numpy.size a)
  /\ (forall dict v,
        _flatten_obs dict = Ok v ->
        v = concat (lmap (fun kv => flat kv.2) dict)
        /\ length v = sum_list (lmap (fun kv => value_size kv.2) dict))
  /\ (forall dict, dict <> [] -> exists v, _flatten_obs dict = Ok v)
  /\ (forall w, _from_pixels w = false ->
        (forall o w',
           reset w = Ok (o, w') ->
           exists v, o = Flat v
             /\ _flatten_obs (observation (env_reset (_env w)).1) = Ok v)
        /\ (forall action o r d x w',
              step w action = Ok (o, r, d, x, w') ->
              exists act env time_step v,
                frame_loop (Z.to_nat (_frame_skip w)) (_env w) act (PyInt 0) None
                = (env, r, Some time_step)
                /\ o = Flat v
                /\ _flatten_obs (observation time_step) = Ok v)).
Proof.
  split; [done|]. split; [intros a; split; [done | apply length_ravel]|].
  split; [|split].
  - intros dict v Hv. apply flatten_obs_ok in Hv as ->.
    split; [done | apply length_concat_pieces].
  - intros [|kv dict] Hne; [done|].
    unfold _flatten_obs, Numpy.concatenate. rewrite pieces_foldl, app_nil_l.
    csimpl. eauto.
  - intros w Hpix. split.
    + unfold reset. intros o w'. destruct (env_reset (_env w)) as [ts env].
      rewrite get_obs_flat by done. simpl.
      destruct (_flatten_obs _) as [v|]; csimpl; [|done].
      intros Heq. simplify_eq. eauto.
    + intros action o r d x w' Hstep.
      apply step_inv in Hstep as (act & env & ts & _ & _ & _ & Hrun & Hobs & _).
      rewrite get_obs_flat in Hobs by done.
      destruct (_flatten_obs _) as [v|] eqn:Hv; csimpl in Hobs; [|done].
      simplify_eq. by exists act, env, ts, v.
Qed.

(** *** Construction *)

Lemma make_background_inv ty files total h wd bg :
  make_background ty files total h wd = Ok bg ->
  match ty with
  | None => bg = None
  | Some t =>
      exists src,
        strategy t (h, wd) (glob_expanduser files) total = Some src
        /\ bg = Some (MkBg src 0)
  end.
Proof.
  unfold make_background, strategy, py_assert. destruct ty as [t|]; [|congruence].
  destruct (String.eqb t "color"); [intros [= <-]; eauto|].
  destruct (String.eqb t "noise"); [intros [= <-]; eauto|].
  destruct (negb _); csimpl; [|done].
  destruct (String.eqb t "images"); [intros [= <-]; eauto|].
  destruct (String.eqb t "video"); [intros [= <-]; eauto|]. done.
Qed.

Lemma make_background_other t files total h wd :
  strategy t (h, wd) (glob_expanduser files) total = None ->
  raises (make_background (Some t) files total h wd) = true.
Proof.
  unfold make_background, strategy, py_assert.
  destruct (String.eqb t "color"); [done|].
  destruct (String.eqb t "noise"); [done|].
  destruct (negb _); csimpl; [|done].
  destruct (String.eqb t "images"); [done|].
  by destruct (String.eqb t "video").
Qed.

(** C5. A wrapper that the constructor returns holds the background
    source that its distractor type names: ["color"] a
    [RandomColorSource], ["noise"] a [NoiseSource], ["images"] a
    [RandomImageSource] and ["video"] a [RandomVideoSource] over the
    files matching [distractor_files]; for any other type the
    constructor raises; for [None] no source is made, and observations
    are the rendered frame as it is. *)
Theorem background_source_by_type robot task files ty total kw vis fp h wd cam fs ekw :
  (forall w,
     __init__ robot task files ty total kw vis fp h wd cam fs ekw = Ok w ->
     _img_source w = ty
     /\ match ty with
        | None => _bg_source w = None
        | Some t =>
            exists src,
              strategy t (h, wd) (glob_expanduser files) total = Some src
              /\ _bg_source w = Some (MkBg src 0)
        end)
  /\ (forall t,
        ty = Some t ->
        strategy t (h, wd) (glob_expanduser files) total = None ->
        raises (__init__ robot task files ty total kw vis fp h wd cam fs ekw) = true)
  /\ (forall w,
        _img_source w = None ->
        (forall time_step,
           _from_pixels w = true ->
           _get_obs w time_step
           = Ok (Pixels (Numpy.transpose_201 (rendered w (_env w))), w))
        /\ (forall o w', reset w = Ok (o, w') -> _img_source w' = None)
        /\ (forall action o r d x w',
              step w action = Ok (o, r, d, x, w') -> _img_source w' = None)).
Proof.
  split; [|split].
  - intros w Hinit.
    apply init_inv in Hinit
      as (kwargs & env & tas & osp & bg & _ & _ & _ & _ & Hbg & ->).
    split; [done|]. apply make_background_inv in Hbg. exact Hbg.
  - intros t -> Hnone.
    pose proof (make_background_other t files total h wd Hnone) as Hraise.
    unfold __init__.
    destruct (make_background _ _ _ _ _) as [bg|e]; [done|].
    destruct (check_seed kw) as [kwargs|]; csimpl; [|done].
    destruct (suite_load _ _ _ _ _) as [env|]; csimpl; [|done].
    destruct (_spec_to_box _) as [tas|]; csimpl; [|done].
    by destruct (make_observation_space _ _ _ _) as [osp|].
  - intros w Hnone. split; [|split].
    + intros time_step Hpix. by apply get_obs_plain.
    + unfold reset. intros o w'. destruct (env_reset (_env w)) as [ts env].
      intros Hobs. apply get_obs_img_source in Hobs. by rewrite Hobs.
    + intros action o r d x w' Hstep.
      apply step_returns_get_obs in Hstep as (env & ts & Hobs).
      apply get_obs_img_source in Hobs. by rewrite Hobs.
Qed.

(** C9. Without keyword arguments the membership test raises a
    [TypeError]; with a dictionary that lacks ['random'] the constructor
    fails its assertion with the message that asks for a seed; and a
    wrapper that the constructor returns has its spaces seeded with
    [task_kwargs['random']], the default 1 of [.get] standing in only
    for a missing key. *)
Theorem constructor_requires_seed robot task files ty total kw vis fp h wd cam fs ekw :
  (kw = None ->
   __init__ robot task files ty total kw vis fp h wd cam fs ekw = Raise TypeError)
  /\ (forall d,
        kw = Some d -> d !! "random" = None ->
        __init__ robot task files ty total kw vis fp h wd cam fs ekw
        = Raise (AssertionError
                   "please specify a seed, for deterministic behaviour"))
  /\ (forall w,
        __init__ robot task files ty total kw vis fp h wd cam fs ekw = Ok w ->
        exists d s,
          kw = Some d /\ d !! "random" = Some s
          /\ Gym.np_random (_true_action_space w) = Some s
          /\ Gym.np_random (_norm_action_space w) = Some s
          /\ Gym.space_seed (observation_space w) = Some s)
  /\ (forall (d : gmap string pyval),
        (d !! "random" = None ->
         default (PyNum (PyInt 1)) (d !! "random") = PyNum (PyInt 1))
        /\ (forall s, d !! "random" = Some s ->
                      default (PyNum (PyInt 1)) (d !! "random") = s)).
Proof.
  split; [|split; [|split]].
  - by intros ->.
  - intros d -> Hd. unfold __init__, check_seed, py_assert. rewrite Hd.
    rewrite bool_decide_eq_false_2; [done|]. by intros [? ?].
  - intros w Hinit.
    apply init_inv in Hinit
      as (kwargs & env & tas & osp & bg & Hseed & _ & _ & _ & _ & ->).
    unfold check_seed, py_assert in Hseed. destruct kw as [d|]; [|done].
    destruct (d !! "random") as [s|] eqn:Hd.
    + rewrite bool_decide_eq_true_2 in Hseed by eauto. csimpl in Hseed.
      injection Hseed as <-. exists d, s. rewrite Hd.
      repeat split; try done. unfold observation_space. simpl. by destruct osp.
    + rewrite bool_decide_eq_false_2 in Hseed; [done|]. by intros [? ?].
  - intros d. split; [by intros -> | by intros s ->].
Qed.

(** C1. A wrapper constructed with [from_pixels] true and a distractor
    type is in pixel mode with a background source, and stays so.  Every
    observation that [_get_obs] produces for it, and so every
    observation [reset] and [step] return, is the rendered frame in
    which exactly the pixels whose channel 2 strictly exceeds channels 1
    and 0 are replaced by the pixels of the background image at the same
    place, transposed from (H, W, 3) to (3, H, W); and [_get_obs] does
    produce it whenever the background image has the height and width of
    the frame. *)
Theorem get_obs_replaces_background :
  (forall robot task files t total kw vis h wd cam fs ekw w,
     __init__ robot task files (Some t) total kw vis true h wd cam fs ekw = Ok w ->
     distracted w)
  /\ (forall w bg,
        distracted w -> _bg_source w = Some bg ->
        (forall time_step o w',
           _get_obs w time_step = Ok (o, w') ->
           masked_with (rendered w (_env w)) (next_image bg) o /\ distracted w')
        /\ (forall time_step,
              Numpy.same_shape (next_image bg) (rendered w (_env w)) = true ->
              exists o w', _get_obs w time_step = Ok (o, w'))
        /\ (forall o w',
              reset w = Ok (o, w') ->
              masked_with (rendered w (_env w')) (next_image bg) o /\ distracted w')
        /\ (forall action o r d x w',
              step w action = Ok (o, r, d, x, w') ->
              masked_with (rendered w (_env w')) (next_image bg) o /\ distracted w')).
Proof.
  assert (Hkeep : forall w1 time_step o w',
            distracted w1 -> _get_obs w1 time_step = Ok (o, w') -> distracted w').
  { intros w1 time_step o w' Hd Hobs.
    apply get_obs_state in Hobs as [-> | [bg' ->]]; [done|].
    destruct Hd as (Hp & Hi & _). split; [exact Hp|]. split; [exact Hi|].
    by eexists. }
  split.
  - intros robot task files t total kw vis h wd cam fs ekw w Hinit.
    apply init_inv in Hinit
      as (kwargs & env & tas & osp & bg & _ & _ & _ & _ & Hbg & ->).
    apply make_background_inv in Hbg as (src & _ & ->).
    repeat split; by eexists.
  - intros w bg Hd Hbg. pose proof Hd as (Hpix & [ty Hty] & _).
    destruct (masked_observations w ty bg Hpix Hty Hbg)
      as (Hget & Hsome & Hreset & Hstep).
    split; [|split; [exact Hsome|split]].
    + intros time_step o w' Hobs. split; [by eapply Hget | by eapply Hkeep].
    + intros o w' Hobs. split; [by apply Hreset|].
      unfold reset in Hobs. destruct (env_reset (_env w)) as [ts env].
      eapply Hkeep; [|exact Hobs]. exact Hd.
    + intros action o r d x w' Hobs. split; [by eapply Hstep|].
      apply step_returns_get_obs in Hobs as (env & ts & Hobs).
      eapply Hkeep; [|exact Hobs]. exact Hd.
Qed.

(** *** Attribute access *)

(** C6. A name that neither the instance nor the class (with its
    bases) defines is looked up on the wrapped environment, and the
    wrapper returns what that lookup gives. *)
Theorem getattr_forwards w name :
  name ∉ instance_dict w -> name ∉ class_dict -> inherited name = false ->
  getattr w name = (v ← env_getattr (_env w) name; Ok (Forwarded v)).
Proof.
  intros Hinst Hclass Hbase. unfold getattr, __getattr__.
  rewrite (bool_decide_eq_false_2 _ Hinst), (bool_decide_eq_false_2 _ Hclass).
  by rewrite Hbase.
Qed.

(** *** Rendering *)

(** C8. On a wrapper whose camera is [c <> 0], [_render] and [render]
    called with [camera_id=0] render from camera [c]; a height or a
    width of 0 is replaced by the stored one in the same way. *)
Theorem render_replaces_falsy_arguments w height width :
  _camera_id w <> 0 ->
  int_or (Some 0) (_camera_id w) = _camera_id w
  /\ int_or (Some 0) (_camera_id w) <> 0
  /\ _render w "rgb_array" height width (Some 0)
     = Ok (physics_render (_env w) (int_or height (_height w))
             (int_or width (_width w)) (_camera_id w))
  /\ render w "rgb_array" height width (Some 0)
     = render w "rgb_array" height width (Some (_camera_id w))
  /\ (_from_pixels w = false ->
      render w "rgb_array" height width (Some 0)
      = Ok (physics_render (_env w) (int_or height (_height w))
              (int_or width (_width w)) (_camera_id w), w))
  /\ (forall camera_id,
        _render w "rgb_array" (Some 0) width camera_id
        = Ok (physics_render (_env w) (_height w) (int_or width (_width w))
                (int_or camera_id (_camera_id w))))
  /\ (forall camera_id,
        _render w "rgb_array" height (Some 0) camera_id
        = Ok (physics_render (_env w) (int_or height (_height w)) (_width w)
                (int_or camera_id (_camera_id w)))).
Proof.
  intros Hc.
  assert (Hself : int_or (Some (_camera_id w)) (_camera_id w) = _camera_id w)
    by apply int_or_same.
  split; [done|]. split; [done|]. split; [done|]. split; [|split; [|split]].
  - unfold render, _render. by rewrite Hself.
  - intros Hpix. unfold render, _render. by rewrite Hpix.
  - done.
  - done.
Qed.

End Properties.

(** * Running the model

    The small suite meets the contracts, and the properties above are
    exercised on wrappers built by the constructor. *)

Lemma toy_grid_shape h w (f : Z -> Z -> Numpy.pixel) :
  Numpy.has_shape2 (Toy.grid h w f) (Z.to_nat h) (Z.to_nat w).
Proof.
  unfold Toy.grid. split.
  - by rewrite length_fmap, length_seqZ.
  - apply Forall_fmap, Forall_forall. intros i _. simpl.
    by rewrite length_fmap, length_seqZ.
Qed.

Lemma toy_grid_uint8 h w (f : Z -> Z -> Numpy.pixel) :
  (forall i j, Numpy.uint8 (Numpy.ch0 (f i j)) /\ Numpy.uint8 (Numpy.ch1 (f i j))
               /\ Numpy.uint8 (Numpy.ch2 (f i j))) ->
  Numpy.uint8_frame (Toy.grid h w f).
Proof.
  intros Hf. unfold Toy.grid, Numpy.uint8_frame.
  apply Forall_fmap, Forall_forall. intros i _. simpl.
  apply Forall_fmap, Forall_forall. intros j _. apply Hf.
Qed.

Lemma uint8_mod (x : Z) : Numpy.uint8 (x mod 256).
Proof. unfold Numpy.uint8. pose proof (Z.mod_pos_bound x 256). lia. Qed.

Lemma toy_renderer_contract aspec : @renderer_contract nat (Toy.suite aspec).
Proof.
  intros env h wd c. split; [apply toy_grid_shape|].
  apply toy_grid_uint8. intros i j. simpl. auto using uint8_mod.
Qed.

Lemma toy_source_contract aspec : @source_contract nat (Toy.suite aspec).
Proof.
  intros src n. apply toy_grid_uint8. intros i j. simpl. auto using uint8_mod.
Qed.

(** C2, at a failing input.  The actuator takes controls in
    [-1.0, 0.2].  The code rounds [high - low] to [float32] before it
    scales, and the action [+1] comes out as 13421776 * 2^-26, three
    units in the last place above the upper bound 13421773 * 2^-26 (the
    [float32] nearest to 0.2); the rescaling computed in [float64]
    gives the upper bound.  The action [-1] does map to the lower
    bound. *)
Theorem convert_action_misses_upper_bound :
  Toy.make Toy.lopsided_actuator None false 1 = Ok Toy.lopsided_env
  /\ Gym.low (_true_action_space Toy.lopsided_env) = [Float.f32 (-1) 0]
  /\ Gym.high (_true_action_space Toy.lopsided_env)
     = [S754_finite false 13421773 (-26)]
  /\ _convert_action Toy.lopsided_env [Float.f32 1 0]
     = Ok [S754_finite false 13421776 (-26)]
  /\ affine_rescale (Float.f32 (-1) 0) (S754_finite false 13421773 (-26))
       (Float.f32 1 0)
     = S754_finite false 13421773 (-26)
  /\ _convert_action Toy.lopsided_env [Float.f32 (-1) 0]
     = Ok [Float.f32 (-1) 0].
Proof. vm_compute. repeat split. Qed.

(** C7, at a failing input.  On the same wrapper the action [+1] is in
    the normalized space, its conversion is not in the true space, and
    [step] fails its second assertion.  With an actuator without limits
    the bounds are infinite, every conversion is NaN, and [step] fails
    for every action. *)
Theorem converted_action_outside_true_space :
  Gym.contains (_norm_action_space Toy.lopsided_env) [Float.f32 1 0] = true
  /\ (act ← _convert_action Toy.lopsided_env [Float.f32 1 0];
      Ok (Gym.contains (_true_action_space Toy.lopsided_env) act)) = Ok false
  /\ @step nat (Toy.suite Toy.lopsided_actuator) Toy.lopsided_env [Float.f32 1 0]
     = Raise (AssertionError "")
  /\ Gym.contains (_norm_action_space Toy.free_env) [S754_zero false] = true
  /\ _convert_action Toy.free_env [S754_zero false] = Ok [S754_nan]
  /\ @step nat (Toy.suite Toy.free_actuator) Toy.free_env [S754_zero false]
     = Raise (AssertionError "").
Proof. vm_compute. repeat split. Qed.

(** ** The properties on the small suite *)

Lemma get_obs_replaces_background_witness :
  exists o w',
    @_get_obs nat (Toy.suite Toy.actuator) Toy.pixel_env None = Ok (o, w')
    /\ masked_with (@rendered nat (Toy.suite Toy.actuator) Toy.pixel_env 0%nat)
         (@next_image nat (Toy.suite Toy.actuator) (MkBg (RandomColorSource (2, 3)) 0))
         o.
Proof.
  destruct (@get_obs_replaces_background nat (Toy.suite Toy.actuator))
    as [Hinit Hobs].
  assert (Hd : distracted Toy.pixel_env).
  { apply (Hinit "cartpole" "swingup" "~/bg/*.png" "color" (Some 10) Toy.seeded
             false 2 3 1 4 None). vm_compute. reflexivity. }
  destruct (Hobs Toy.pixel_env (MkBg (RandomColorSource (2, 3)) 0) Hd)
    as (Hany & Hsome & _); [vm_compute; reflexivity|].
  destruct (Hsome None) as (o & w' & Ho); [vm_compute; reflexivity|].
  exists o, w'. split; [exact Ho|]. exact (proj1 (Hany None o w' Ho)).
Defined.

Lemma step_frame_skip_witness :
  exists k tss ts env,
    (1 <= k <= 4)%nat
    /\ @sub_steps nat (Toy.suite Toy.actuator) k 0%nat [Float.f32 1 0]
       = (tss ++ [ts], env)
    /\ (k = 4%nat \/ last ts = true)
    /\ @frame_loop nat (Toy.suite Toy.actuator) 4 0%nat [Float.f32 1 0] (PyInt 0) None
       = (env, total_reward (tss ++ [ts]), Some ts).
Proof.
  destruct (@step_frame_skip nat (Toy.suite Toy.actuator) Toy.state_env)
    as [Hloop _]; [vm_compute; discriminate|].
  destruct (Hloop [Float.f32 1 0]) as (k & tss & ts & env & Hk & _ & Hsub & _ & Hend & Hrun).
  exists k, tss, ts, env. repeat split; try exact Hsub; try exact Hend; try exact Hrun; apply Hk.
Defined.

Lemma flatten_obs_concatenates_witness :
  exists v,
    @_flatten_obs (observation (Toy.time_step 1)) = Ok v /\ length v = 5%nat.
Proof.
  destruct (@flatten_obs_concatenates nat (Toy.suite Toy.actuator))
    as (_ & _ & Hcat & Htotal & _).
  destruct (Htotal (observation (Toy.time_step 1))) as [v Hv]; [discriminate|].
  exists v. split; [exact Hv|]. destruct (Hcat _ _ Hv) as [_ ->]. reflexivity.
Defined.

Lemma background_source_by_type_witness :
  _bg_source Toy.pixel_env = Some (MkBg (RandomColorSource (2, 3)) 0).
Proof.
  destruct (@background_source_by_type nat (Toy.suite Toy.actuator) "cartpole"
              "swingup" "~/bg/*.png" (Some "color") (Some 10) Toy.seeded false true
              2 3 1 4 None) as [Hinit _].
  destruct (Hinit Toy.pixel_env) as [_ (src & Hsrc & ->)]; [vm_compute; reflexivity|].
  vm_compute in Hsrc. by injection Hsrc as <-.
Defined.

Lemma constructor_requires_seed_witness :
  @__init__ nat (Toy.suite Toy.actuator) "cartpole" "swingup" "~/bg/*.png" None None
    (Some ∅) false false 2 3 1 4 None
  = Raise (AssertionError "please specify a seed, for deterministic behaviour").
Proof.
  destruct (@constructor_requires_seed nat (Toy.suite Toy.actuator) "cartpole"
              "swingup" "~/bg/*.png" None None (Some ∅) false false 2 3 1 4 None)
    as (_ & Hmissing & _).
  apply (Hmissing ∅); reflexivity.
Defined.

Lemma getattr_forwards_witness :
  @getattr nat (Toy.suite Toy.actuator) Toy.pixel_env "physics"
  = Ok (Forwarded (PyStr "Physics")).
Proof.
  rewrite (@getattr_forwards nat (Toy.suite Toy.actuator) Toy.pixel_env "physics").
  - reflexivity.
  - apply (bool_decide_eq_false_1 _). vm_compute. reflexivity.
  - apply (bool_decide_eq_false_1 _). vm_compute. reflexivity.
  - reflexivity.
Defined.

Lemma render_replaces_falsy_arguments_witness :
  @_render nat (Toy.suite Toy.actuator) Toy.state_env "rgb_array" None None (Some 0)
  = Ok (Toy.render 0 2 3 1).
Proof.
  destruct (@render_replaces_falsy_arguments nat (Toy.suite Toy.actuator)
              Toy.state_env None None) as (_ & _ & Hrender & _).
  - vm_compute. discriminate.
  - rewrite Hrender. reflexivity.
Defined.

Lemma pixel_observations_in_space_witness :
  exists o w',
    @reset nat (Toy.suite Toy.actuator) Toy.pixel_env = Ok (o, w')
    /\ in_space (observation_space w') o = true.
Proof.
  destruct (@pixel_observations_in_space nat (Toy.suite Toy.actuator)
              (toy_renderer_contract _) (toy_source_contract _)) as [Hinit Hinv].
  destruct (Hinit "cartpole" "swingup" "~/bg/*.png" (Some "color") (Some 10)
              Toy.seeded false 2 3 1 4 None Toy.pixel_env) as [Hadv _];
    [vm_compute; reflexivity|].
  destruct (Hinv _ Hadv) as [Hreset _].
  destruct (@reset nat (Toy.suite Toy.actuator) Toy.pixel_env) as [[o w']|e] eqn:Hr;
    [|vm_compute in Hr; discriminate].
  exists o, w'. split; [reflexivity|]. by apply (Hreset o w').
Defined.

(** * Further properties *)

(** ** Layouts *)

Lemma transpose_round_trip (a : Numpy.frame) :
  Numpy.transpose_120 (Numpy.transpose_201 a) = Ok a.
Proof.
  unfold Numpy.transpose_120, Numpy.transpose_201, Numpy.plane. f_equal.
  induction a as [|row a IH]; [done|]. csimpl. f_equal; [|exact IH].
  clear IH. induction row as [|p row IH]; [done|]. csimpl. f_equal; [|exact IH].
  by destruct p.
Qed.

Section MoreProperties.
Context {E : Type} `{!ControlSuite E}.
Implicit Types (w : @DMCWrapper E) (env : E) (ts : TimeStep).

Lemma with_env_same w : with_env w (_env w) = w.
Proof. by destruct w. Qed.

Lemma observed_with_env w env env' :
  observed (with_env w env) env' = observed w env'.
Proof.
  unfold observed. simpl.
  by destruct (_from_pixels w), (_img_source w), (_bg_source w).
Qed.

(** The wrapper that [_get_obs] leaves behind. *)
Lemma get_obs_observed w time_step o w' :
  _get_obs w time_step = Ok (o, w') -> w' = observed w (_env w).
Proof.
  unfold observed. destruct (_from_pixels w) eqn:Hpix.
  - destruct (_img_source w) as [ty|] eqn:Hty.
    + destruct (_bg_source w) as [bg|] eqn:Hbg.
      * intros Hobs.
        pose proof (get_obs_pixels_shape _ _ _ _ _ _ Hpix Hty Hbg Hobs) as Hshape.
        rewrite (get_obs_pixels w time_step ty bg Hpix Hty Hbg Hshape) in Hobs.
        simplify_eq. by rewrite with_env_same.
      * unfold _get_obs, _render, get_image. rewrite Hpix, Hty, Hbg. csimpl.
        by destruct (env_getattr _ _).
    + rewrite (get_obs_plain w time_step Hpix Hty). intros Heq. simplify_eq.
      by rewrite with_env_same.
  - unfold _get_obs. rewrite Hpix. destruct time_step; [|done].
    destruct (_flatten_obs _); csimpl; [|done]. intros Heq. simplify_eq.
    by rewrite with_env_same.
Qed.

Lemma get_obs_pixel_layout w time_step o w' :
  _from_pixels w = true -> _get_obs w time_step = Ok (o, w') ->
  exists a, o = Pixels (Numpy.transpose_201 a).
Proof.
  intros Hpix. destruct (_img_source w) as [ty|] eqn:Hty.
  - destruct (_bg_source w) as [bg|] eqn:Hbg.
    + intros Hobs.
      pose proof (get_obs_pixels_shape _ _ _ _ _ _ Hpix Hty Hbg Hobs) as Hshape.
      rewrite (get_obs_pixels w time_step ty bg Hpix Hty Hbg Hshape) in Hobs.
      simplify_eq. eauto.
    + unfold _get_obs, _render, get_image. rewrite Hpix, Hty, Hbg. csimpl.
      by destruct (env_getattr _ _).
  - rewrite (get_obs_plain w time_step Hpix Hty). intros Heq. simplify_eq. eauto.
Qed.

(** [render]: in pixel mode it hands back, in (H, W, 3) layout, the
    frame that [_get_obs] observes, whatever mode, height, width and
    camera it is given, and fails as [_get_obs] fails; in state mode it
    renders for the mode ['rgb_array'] and fails its assertion for any
    other mode. *)
Theorem render_by_mode w mode height width camera_id :
  (_from_pixels w = true ->
   (forall o w',
      _get_obs w None = Ok (o, w') -> exists a, o = Pixels (Numpy.transpose_201 a))
   /\ (forall a w',
         _get_obs w None = Ok (Pixels (Numpy.transpose_201 a), w') ->
         render w mode height width camera_id = Ok (a, w'))
   /\ (forall e,
         _get_obs w None = Raise e ->
         render w mode height width camera_id = Raise e))
  /\ (_from_pixels w = false ->
      render w mode height width camera_id
      = if String.eqb mode "rgb_array"
        then Ok (physics_render (_env w) (int_or height (_height w))
                   (int_or width (_width w)) (int_or camera_id (_camera_id w)), w)
        else Raise (AssertionError "")).
Proof.
  split.
  - intros Hpix. split; [|split].
    + intros o w' Hobs. by eapply get_obs_pixel_layout.
    + intros a w' Hobs. unfold render. rewrite Hpix, Hobs. csimpl.
      pose proof (transpose_round_trip a) as Hrt.
      unfold Numpy.transpose_120, Numpy.transpose_201 in Hrt.
      injection Hrt as Hrt. rewrite Hrt.
      by destruct (String.eqb mode "human").
    + intros e Hobs. unfold render. by rewrite Hpix, Hobs.
  - intros Hpix. unfold render, _render, py_assert. rewrite Hpix.
    destruct (String.eqb mode "rgb_array") eqn:Hmode; csimpl; [|done].
    apply String.eqb_eq in Hmode as ->. done.
Qed.

(** ** [step] *)

Lemma frame_loop_none (n : nat) : forall env action rew prev ts env' rew',
  frame_loop n env action rew prev = (env', rew', Some ts) ->
  prev = None -> (1 <= n)%nat.
Proof.
  destruct n; intros env action rew prev ts env' rew' Hloop ->; [done|lia].
Qed.

(** With [frame_skip <= 0] the loop body never runs, [time_step] stays
    unbound, and [step] raises for every action: an action that passes
    both assertions raises [UnboundLocalError]. *)
Theorem step_without_frames w action :
  _frame_skip w <= 0 ->
  raises (step w action) = true
  /\ (forall act,
        Gym.contains (_norm_action_space w) action = true ->
        _convert_action w action = Ok act ->
        Gym.contains (_true_action_space w) act = true ->
        step w action = Raise (UnboundLocalError "time_step")).
Proof.
  intros Hskip.
  assert (Hn : Z.to_nat (_frame_skip w) = 0%nat) by lia.
  split.
  - unfold step, py_assert. rewrite Hn.
    destruct (Gym.contains (_norm_action_space w) action); csimpl; [|done].
    destruct (_convert_action w action) as [act|]; csimpl; [|done].
    by destruct (Gym.contains (_true_action_space w) act).
  - intros act Hnorm Hact Htrue. unfold step, py_assert.
    rewrite Hnorm. csimpl. rewrite Hact. csimpl. rewrite Htrue. csimpl.
    by rewrite Hn.
Qed.

Lemma leb_nan_r (x : spec_float) : Float.leb x S754_nan = false.
Proof. by destruct x as [[]|[]| |[]]. Qed.

Lemma contains_shape_no_nan (b : Gym.Box) (x : list spec_float) :
  Gym.contains b x = true ->
  length x = length (Gym.low b) /\ S754_nan ∉ x.
Proof.
  unfold Gym.contains. rewrite !andb_true_iff, Nat.eqb_eq.
  intros [[Hlen Hlow] _]. split; [done|].
  intros Hnan. apply list_elem_of_lookup in Hnan as [i Hi].
  destruct (lookup_lt_is_Some_2 (Gym.low b) i) as [l Hl].
  { rewrite <- Hlen. by eapply lookup_lt_Some. }
  rewrite forallb_forall in Hlow.
  specialize (Hlow (l, S754_nan)). simpl in Hlow. rewrite leb_nan_r in Hlow.
  assert (Hin : In (l, S754_nan) (zip (Gym.low b) x)).
  { apply list_elem_of_In. apply list_elem_of_lookup. exists i.
    rewrite lookup_zip_with. rewrite Hl. simpl. rewrite Hi. done. }
  by apply Hlow in Hin.
Qed.

(** [step] returns only for an action of the shape of the action space
    that holds no NaN: any other action fails the first assertion. *)
Theorem step_rejects_malformed_actions w action :
  length action <> length (Gym.low (action_space w)) \/ S754_nan ∈ action ->
  step w action = Raise (AssertionError "").
Proof.
  intros Hbad. unfold step, py_assert.
  destruct (Gym.contains (_norm_action_space w) action) eqn:Hnorm; [|done].
  apply contains_shape_no_nan in Hnorm as [Hlen Hnan].
  unfold action_space in Hbad. by destruct Hbad.
Qed.

(** What [step] reports beside the observation: [internal_state] is the
    state of the physics before the first sub-step, not the state the
    step ends in, and [discount] is that of the last sub-step executed. *)
Theorem step_reports_prior_state w action o r d x w' :
  step w action = Ok (o, r, d, x, w') ->
  internal_state x = get_state (_env w)
  /\ exists act k tss ts,
       _convert_action w action = Ok act
       /\ sub_steps k (_env w) act = (tss ++ [ts], _env w')
       /\ extra_discount x = discount ts.
Proof.
  intros Hstep.
  apply step_inv in Hstep as (act & env & ts' & _ & Hact & _ & Hrun & Hobs & _ & ->).
  assert (Henv : _env w' = env) by (by apply get_obs_env in Hobs).
  split; [done|].
  pose proof (frame_loop_none _ _ _ _ _ _ _ _ Hrun eq_refl) as Hn.
  destruct (frame_loop_runs _ (_env w) act (PyInt 0) None Hn)
    as (k & tss & ts & env1 & _ & _ & Hsub & _ & _ & Hrun').
  rewrite Hrun' in Hrun. injection Hrun as He _ Hts. subst env1 ts'.
  exists act, k, tss, ts. by rewrite Henv.
Qed.

(** [step] and [reset] change the wrapper in two places only: the
    environment, and, in pixel mode with a distractor, the background
    source, from which exactly one image is drawn however many
    sub-steps ran. *)
Theorem one_image_per_observation w :
  (forall action o r d x w',
     step w action = Ok (o, r, d, x, w') -> w' = observed w (_env w'))
  /\ (forall o w',
        reset w = Ok (o, w') ->
        _env w' = (env_reset (_env w)).2 /\ w' = observed w (_env w'))
  /\ (forall env bg,
        distracted w -> _bg_source w = Some bg ->
        _bg_source (observed w env)
        = Some (MkBg (bg_source bg) (S (bg_drawn bg))))
  /\ (forall env, ~ distracted w -> observed w env = with_env w env).
Proof.
  split; [|split; [|split]].
  - intros action o r d x w' Hstep.
    apply step_inv in Hstep as (act & env & ts' & _ & _ & _ & _ & Hobs & _).
    pose proof (get_obs_observed _ _ _ _ Hobs) as Hw. simpl in Hw.
    rewrite observed_with_env in Hw.
    assert (Henv : _env w' = env) by (by apply get_obs_env in Hobs).
    by rewrite Henv.
  - unfold reset. intros o w'. destruct (env_reset (_env w)) as [ts env].
    intros Hobs.
    pose proof (get_obs_observed _ _ _ _ Hobs) as Hw. simpl in Hw.
    rewrite observed_with_env in Hw.
    assert (Henv : _env w' = env) by (by apply get_obs_env in Hobs).
    split; [done|]. by rewrite Henv.
  - intros env bg (Hpix & [ty Hty] & _) Hbg. unfold observed.
    by rewrite Hpix, Hty, Hbg.
  - intros env Hnot. unfold observed.
    destruct (_from_pixels w) eqn:Hpix; [|done].
    destruct (_img_source w) as [ty|] eqn:Hty; [|done].
    destruct (_bg_source w) as [bg|] eqn:Hbg; [|done].
    destruct Hnot. split; [exact Hpix|]. by split; eexists.
Qed.

(** ** State observations *)

(** [_flatten_obs] fails for the empty dictionary and for no other, and
    then with numpy's [ValueError]; so in state mode [reset] raises
    [ValueError] when the environment observes nothing. *)
Theorem flatten_obs_fails_only_when_empty :
  (forall dict e, _flatten_obs dict = Raise e <-> dict = [] /\ e = ValueError)
  /\ (forall w,
        _from_pixels w = false ->
        observation (env_reset (_env w)).1 = [] ->
        reset w = Raise ValueError).
Proof.
  assert (Hflat : forall dict e,
            _flatten_obs dict = Raise e <-> dict = [] /\ e = ValueError).
  { intros dict e. unfold _flatten_obs, Numpy.concatenate.
    rewrite pieces_foldl, app_nil_l. destruct dict as [|kv dict]; csimpl.
    - split; [by intros [= <-] | by intros [_ ->]].
    - split; [done | by intros [? _]]. }
  split; [exact Hflat|].
  intros w Hpix Hempty. unfold reset.
  destruct (env_reset (_env w)) as [ts env]. simpl in Hempty.
  rewrite get_obs_flat by done. rewrite Hempty.
  by rewrite (proj2 (Hflat [] ValueError)).
Qed.

(** The layout of a flattened observation: the values of the [i]-th
    entry of the dictionary are the slice that starts where the values
    of the entries before it end. *)
Theorem flatten_obs_slice (dict : list (string * obs_value)) v i k x :
  _flatten_obs dict = Ok v -> dict !! i = Some (k, x) ->
  take (value_size x) (drop (offset dict i) v) = flat x
  /\ (offset dict i + value_size x <= length v)%nat.
Proof.
  intros Hv Hi. apply flatten_obs_ok in Hv as ->. unfold offset.
  assert (Hcat : concat (lmap (fun kv => flat kv.2) dict)
                 = concat (lmap (fun kv => flat kv.2) (take i dict))
                   ++ flat x
                   ++ concat (lmap (fun kv => flat kv.2) (drop (S i) dict))).
  { rewrite <- (take_drop_middle dict i (k, x) Hi) at 1.
    by rewrite fmap_app, concat_app. }
  rewrite Hcat, <- length_concat_pieces, <- length_flat. split.
  - rewrite drop_app_length. by rewrite take_app_length.
  - rewrite !length_app. lia.
Qed.

(** ** Pixel observations *)

(** A background image whose height or width is not that of the frame
    makes [_get_obs], and so [reset], raise [IndexError]: a frame is
    never masked in part. *)
Theorem get_obs_misfit w bg :
  distracted w -> _bg_source w = Some bg ->
  (forall time_step,
     Numpy.same_shape (next_image bg) (rendered w (_env w)) = false ->
     _get_obs w time_step = Raise IndexError)
  /\ (Numpy.same_shape (next_image bg) (rendered w (env_reset (_env w)).2) = false ->
      reset w = Raise IndexError).
Proof.
  intros (Hpix & [ty Hty] & _) Hbg.
  assert (Hget : forall w1 time_step,
            _from_pixels w1 = true -> _img_source w1 = Some ty ->
            _bg_source w1 = Some bg ->
            Numpy.same_shape (next_image bg) (rendered w1 (_env w1)) = false ->
            _get_obs w1 time_step = Raise IndexError).
  { intros w1 time_step H1 H2 H3 Hshape.
    unfold _get_obs, _render, get_image. rewrite H1, H2, H3. csimpl.
    rewrite !if_same. fold (rendered w1 (_env w1)). fold (next_image bg).
    unfold Numpy.getitem_mask.
    destruct (Numpy.same_shape (dmc_mask _) (next_image bg)) eqn:Hmask; [|done].
    apply same_shape_Forall2 in Hmask.
    assert (Hsame : Numpy.same_shape (next_image bg) (rendered w1 (_env w1)) = true).
    { apply same_shape_Forall2.
      eapply Forall2_length_trans;
        [by apply Forall2_length_sym | apply dmc_mask_shape]. }
    congruence. }
  split.
  - intros time_step Hshape. by apply Hget.
  - unfold reset. destruct (env_reset (_env w)) as [ts env]. simpl.
    intros Hshape. by apply Hget.
Qed.

(** ** Attributes *)

(** The wrapper's own attributes are never forwarded: an access is
    forwarded only for a name that neither the instance nor the class
    defines, and then with the environment's value.  [_bg_source] is
    such a name on a wrapper built without a distractor, and an
    attribute of the instance on one built with a distractor. *)
Theorem getattr_own_attributes :
  (forall w name v,
     getattr w name = Ok (Forwarded v) ->
     (name ∉ instance_dict w) /\ (name ∉ class_dict) /\ inherited name = false
     /\ env_getattr (_env w) name = Ok v)
  /\ (forall robot task files ty total kw vis fp h wd cam fs ekw w,
        __init__ robot task files ty total kw vis fp h wd cam fs ekw = Ok w ->
        getattr w "_bg_source"
        = match ty with
          | Some _ => Ok (InstanceAttr "_bg_source")
          | None =>
              if inherited "_bg_source" then Ok (ClassAttr "_bg_source")
              else v ← env_getattr (_env w) "_bg_source"; Ok (Forwarded v)
          end).
Proof.
  split.
  - intros w name v. unfold getattr, __getattr__.
    destruct (bool_decide (name ∈ instance_dict w)) eqn:Hinst; [done|].
    destruct (bool_decide (name ∈ class_dict)) eqn:Hclass; [done|].
    destruct (inherited name) eqn:Hbase; [done|]. csimpl.
    destruct (env_getattr (_env w) name) as [v'|] eqn:Henv; csimpl; [|done].
    intros [= <-].
    apply bool_decide_eq_false_1 in Hinst. by apply bool_decide_eq_false_1 in Hclass.
  - intros robot task files ty total kw vis fp h wd cam fs ekw w Hinit.
    apply init_inv in Hinit
      as (kwargs & env & tas & osp & bg & _ & _ & _ & _ & Hbg & ->).
    apply make_background_inv in Hbg. unfold getattr, __getattr__, instance_dict.
    destruct ty as [t|].
    + destruct Hbg as (src & _ & ->). reflexivity.
    + subst bg. simpl. by destruct (inherited "_bg_source").
Qed.

(** ** Seeding *)



(** ** Spaces *)

Lemma mapM_result_inv {A B} (f : A -> result B) (l : list A) : forall ys,
  mapM f l = Ok ys -> Forall2 (fun x y => f x = Ok y) l ys.
Proof.
  induction l as [|x l IH]; intros ys; csimpl.
  - intros [= <-]. constructor.
  - destruct (f x) as [y|] eqn:Hx; csimpl; [|done].
    destruct (mapM f l) as [k|]; csimpl; [|done].
    intros [= <-]. constructor; auto.
Qed.

Lemma mapM_result_fmap {A B} (f : A -> result B) (g : A -> B) (l : list A) :
  Forall (fun x => f x = Ok (g x)) l -> mapM f l = Ok (g <$> l).
Proof.
  induction 1 as [|x l Hx _ IH]; [done|].
  change (mapM f (x :: l)) with (y ← f x; k ← mapM f l; mret (y :: k)).
  by rewrite Hx, IH.
Qed.

Lemma extract_min_max_float (s : ArraySpec) lo hi :
  extract_min_max s = Ok (lo, hi) -> is_float (spec_dtype s) = true.
Proof.
  unfold extract_min_max, py_assert. by destruct (is_float (spec_dtype s)).
Qed.

Lemma extract_min_max_unbounded (s : ArraySpec) :
  is_unbounded s = true ->
  extract_min_max s
  = Ok (replicate (spec_dim s) Float.neg_inf, replicate (spec_dim s) Float.inf).
Proof.
  destruct s as [sh dt|]; [|done]. simpl. intros Hdt.
  unfold extract_min_max, py_assert. simpl. rewrite Hdt. csimpl.
  by rewrite fmap_replicate.
Qed.

Lemma concat_replicates {A B} (d : A -> nat) (x : B) (l : list A) :
  concat ((fun s => replicate (d s) x) <$> l) = replicate (sum_list (d <$> l)) x.
Proof.
  induction l as [|s l IH]; [done|]. csimpl. by rewrite IH, replicate_add.
Qed.

Lemma spec_to_box_inv (spec : list ArraySpec) (b : Gym.Box) :
  _spec_to_box spec = Ok b ->
  length (Gym.low b) = length (Gym.high b)
  /\ spec <> []
  /\ Forall (fun s => is_float (spec_dtype s) = true) spec
  /\ Gym.np_random b = None.
Proof.
  unfold _spec_to_box, Numpy.concatenate, py_assert.
  destruct (mapM extract_min_max spec) as [bounds|] eqn:Hm; csimpl; [|done].
  apply mapM_result_inv in Hm.
  destruct (lmap fst bounds) as [|l0 ls] eqn:Hfst; csimpl; [done|].
  destruct (lmap snd bounds) as [|h0 hs] eqn:Hsnd; csimpl; [done|].
  destruct (length (l0 ++ concat ls) =? length (h0 ++ concat hs))%nat eqn:Hlen;
    csimpl; [|done].
  intros [= <-]. simpl. apply Nat.eqb_eq in Hlen.
  split; [by rewrite !length_fmap|]. split; [|split; [|done]].
  - intros ->. apply Forall2_nil_inv_l in Hm. by subst.
  - clear Hfst Hsnd Hlen. induction Hm as [|s [lo hi] spec bounds Hs _ IH];
      constructor; [by eapply extract_min_max_float | exact IH].
Qed.

Lemma spec_to_box_unbounded_eq (spec : list ArraySpec) :
  spec <> [] -> Forall (fun s => is_unbounded s = true) spec ->
  _spec_to_box spec
  = Ok (Gym.full_box Float.neg_inf Float.inf (sum_list (spec_dim <$> spec))).
Proof.
  intros Hne Hall. unfold _spec_to_box.
  rewrite (mapM_result_fmap _
             (fun s => (replicate (spec_dim s) Float.neg_inf,
                        replicate (spec_dim s) Float.inf))).
  2:{ eapply Forall_impl; [exact Hall|]. intros s. apply extract_min_max_unbounded. }
  csimpl. rewrite <- !list_fmap_compose.
  unfold Numpy.concatenate. destruct spec as [|s spec]; [done|].
  csimpl.
  change (replicate (spec_dim s) Float.neg_inf
          ++ concat ((fst ∘ (fun s0 => (replicate (spec_dim s0) Float.neg_inf,
                                        replicate (spec_dim s0) Float.inf)))
                     <$> spec))
    with (concat ((fun s0 => replicate (spec_dim s0) Float.neg_inf) <$> (s :: spec))).
  change (replicate (spec_dim s) Float.inf
          ++ concat ((snd ∘ (fun s0 => (replicate (spec_dim s0) Float.neg_inf,
                                        replicate (spec_dim s0) Float.inf)))
                     <$> spec))
    with (concat ((fun s0 => replicate (spec_dim s0) Float.inf) <$> (s :: spec))).
  rewrite !concat_replicates, !length_replicate, Nat.eqb_refl. csimpl.
  by rewrite !fmap_replicate.
Qed.

(** [_spec_to_box] returns only for a list of specs that is not empty
    and whose dtypes are all floating point, and the box it returns has
    as many lower as upper bounds and no generator; for the empty list
    it raises [ValueError]. *)
Theorem spec_to_box_well_formed :
  (forall spec b,
     _spec_to_box spec = Ok b ->
     length (Gym.low b) = length (Gym.high b)
     /\ spec <> []
     /\ Forall (fun s => is_float (spec_dtype s) = true) spec
     /\ Gym.np_random b = None)
  /\ _spec_to_box [] = Raise ValueError
  /\ (forall s, is_float (spec_dtype s) = false ->
                _spec_to_box [s] = Raise (AssertionError "")).
Proof.
  split; [exact spec_to_box_inv|]. split; [done|].
  intros s Hs. unfold _spec_to_box, extract_min_max, py_assert. csimpl.
  by rewrite Hs.
Qed.

(** For specs without bounds [_spec_to_box] gives the box from minus
    infinity to infinity whose length is the sum of the products of the
    shapes. *)
Theorem spec_to_box_unbounded (spec : list ArraySpec) :
  spec <> [] -> Forall (fun s => is_unbounded s = true) spec ->
  _spec_to_box spec
  = Ok (Gym.full_box Float.neg_inf Float.inf (sum_list (spec_dim <$> spec))).
Proof. apply spec_to_box_unbounded_eq. Qed.

Lemma add64_pos_zero (x : spec_float) :
  x <> S754_zero true -> Float.add64 x (S754_zero false) = x.
Proof. by destruct x as [[]|[]| |]. Qed.

Lemma zip_add_zeros (xs : list spec_float) n :
  length xs = n -> S754_zero true ∉ xs ->
  zip_with Float.add64 xs (Float.to64 <$> replicate n (S754_zero false)) = xs.
Proof.
  intros <-. induction xs as [|x xs IH]; [done|]. intros Hx. csimpl.
  rewrite add64_pos_zero, IH; [done| |]; set_solver.
Qed.

Lemma broadcast_same_length {A B C} (f : A -> B -> C) (a : list A) (b : list B) :
  length a = length b -> Numpy.broadcast f a b = Ok (zip_with f a b).
Proof. intros Hlen. unfold Numpy.broadcast. by rewrite Hlen, Nat.eqb_refl. Qed.

Lemma extract_min_max_bounded shape dt minimum maximum :
  is_float dt = true ->
  length minimum = spec_dim (BoundedArray shape dt minimum maximum) ->
  length maximum = spec_dim (BoundedArray shape dt minimum maximum) ->
  S754_zero true ∉ minimum -> S754_zero true ∉ maximum ->
  extract_min_max (BoundedArray shape dt minimum maximum) = Ok (minimum, maximum).
Proof.
  unfold spec_dim. simpl. intros Hdt Hmin Hmax Hzmin Hzmax.
  unfold extract_min_max, py_assert. simpl. rewrite Hdt. csimpl.
  rewrite !broadcast_same_length by (by rewrite length_fmap, length_replicate).
  csimpl. by rewrite !zip_add_zeros.
Qed.

(** For one bounded spec whose bounds have the length of its shape, the
    box has the bounds of the spec rounded to [float32] (a bound -0.0
    apart, which adding the zeros turns into 0.0). *)
Theorem spec_to_box_bounded shape dt minimum maximum :
  is_float dt = true ->
  length minimum = spec_dim (BoundedArray shape dt minimum maximum) ->
  length maximum = spec_dim (BoundedArray shape dt minimum maximum) ->
  S754_zero true ∉ minimum -> S754_zero true ∉ maximum ->
  _spec_to_box [BoundedArray shape dt minimum maximum]
  = Ok (Gym.MkBox (Float.to32 <$> minimum) (Float.to32 <$> maximum) None).
Proof.
  intros Hdt Hmin Hmax Hzmin Hzmax. unfold _spec_to_box.
  change (mapM ?f [?x]) with (y ← f x; k ← mret []; mret (y :: k)).
  rewrite extract_min_max_bounded by done. csimpl.
  unfold Numpy.concatenate. csimpl. rewrite !app_nil_r.
  by rewrite Hmin, Hmax, Nat.eqb_refl.
Qed.








(** ** Rescaling *)

#[local] Arguments Float.to64 : simpl never.
#[local] Arguments Float.to32 : simpl never.
#[local] Arguments Float.f32 : simpl never.
#[local] Arguments Float.sub32 : simpl never.
#[local] Arguments Float.sub64 : simpl never.
#[local] Arguments Float.mul64 : simpl never.
#[local] Arguments Float.div64 : simpl never.

Lemma mul64_zero_finite (d : spec_float) :
  is_finite d = true -> exists s, Float.mul64 (S754_zero false) d = S754_zero s.
Proof. destruct d as [[]| | |[]]; try done; simpl; eauto. Qed.

Lemma rescale_zero :
  Float.div64
    (Float.sub64 (Float.to64 (Float.f32 (-1) 0)) (Float.to64 (Float.f32 (-1) 0)))
    (Float.to64 (Float.sub32 (Float.f32 1 0) (Float.f32 (-1) 0)))
  = S754_zero false.
Proof. reflexivity. Qed.

Lemma rescale_lower (d lo : spec_float) :
  is_finite d = true -> is_float32 lo ->
  same_number
    (Float.to32 (Float.add64 (Float.mul64 (S754_zero false) d) (Float.to64 lo)))
    lo.
Proof.
  intros Hd Hlo. destruct (mul64_zero_finite d Hd) as [s ->].
  unfold is_float32 in Hlo.
  destruct (Float.is_zero (Float.to64 lo)) eqn:Hz.
  - destruct (Float.to64 lo) as [b| | |] eqn:HL; try done.
    right. rewrite <- Hlo. by destruct s, b.
  - left. by rewrite add64_zero_l.
Qed.

(** The action -1 is rescaled to the lower bound: on a wrapper whose
    normalized space is the box from -1 to 1, for true bounds that are
    [float32] numbers and whose differences [high - low] are finite,
    [_convert_action] maps the vector of -1 to the vector of the lower
    bounds. *)
Theorem convert_action_lower_bound w n :
  Gym.low (_norm_action_space w) = replicate n (Float.f32 (-1) 0) ->
  Gym.high (_norm_action_space w) = replicate n (Float.f32 1 0) ->
  length (Gym.low (_true_action_space w)) = n ->
  Forall2 (fun hi lo => is_finite (Float.to64 (Float.sub32 hi lo)) = true)
    (Gym.high (_true_action_space w)) (Gym.low (_true_action_space w)) ->
  Forall is_float32 (Gym.low (_true_action_space w)) ->
  exists act,
    _convert_action w (replicate n (Float.f32 (-1) 0)) = Ok act
    /\ Forall2 same_number act (Gym.low (_true_action_space w)).
Proof.
  intros Hnl Hnh Hlen Hfin Hrep.
  pose proof (Forall2_length _ _ _ Hfin) as Hlen'.
  unfold _convert_action. rewrite Hnl, Hnh.
  rewrite (broadcast_same_length Float.sub32
             (Gym.high (_true_action_space w))) by done. csimpl.
  rewrite (broadcast_same_length Float.sub32 (replicate n _))
    by (by rewrite !length_replicate). csimpl.
  rewrite !fmap_replicate, !zip_with_replicate.
  rewrite (broadcast_same_length Float.sub64) by (by rewrite !length_replicate).
  csimpl. rewrite !fmap_replicate, zip_with_replicate.
  rewrite (broadcast_same_length Float.div64) by (by rewrite !length_replicate).
  csimpl. rewrite zip_with_replicate, rescale_zero.
  rewrite (broadcast_same_length Float.mul64)
    by (rewrite length_replicate, length_fmap, length_zip_with; lia).
  csimpl.
  rewrite (broadcast_same_length Float.add64)
    by (rewrite !length_zip_with, length_replicate, !length_fmap, length_zip_with; lia).
  csimpl. eexists. split; [done|].
  clear Hnl Hnh Hlen'. revert n Hlen.
  induction Hfin as [|hi lo his los Hd _ IH]; intros n Hlen.
  - destruct n; [constructor | done].
  - destruct n as [|n]; [done|]. csimpl.
    apply Forall_cons in Hrep as [Hlo Hrep].
    constructor; [by apply rescale_lower | apply IH; [done | by simplify_eq/=]].
Qed.

(** ** When [step] and [reset] return *)

Lemma sub_steps_from_env (k : nat) action : forall env tss env',
  sub_steps k env action = (tss, env') ->
  Forall (fun t => exists e, t = (env_step e action).1) tss.
Proof.
  induction k as [|k IH]; intros env tss env' Hsub; simpl in Hsub.
  - injection Hsub as <- _. constructor.
  - destruct (env_step env action) as [ts1 env1] eqn:Hs.
    destruct (sub_steps k env1 action) as [tss' env2] eqn:Hrest.
    injection Hsub as <- _. constructor; [|by eapply IH].
    exists env. by rewrite Hs.
Qed.

(** With [frame_skip >= 1], an action that passes both assertions, and
    no distractor, [step] returns, in pixel mode always and in state
    mode whenever the environment's observations are not empty;
    [reset] returns under the same conditions on the observation. *)
Theorem step_and_reset_return w action act :
  1 <= _frame_skip w ->
  Gym.contains (_norm_action_space w) action = true ->
  _convert_action w action = Ok act ->
  Gym.contains (_true_action_space w) act = true ->
  (_from_pixels w = true -> _img_source w = None ->
   (exists o r d x w', step w action = Ok (o, r, d, x, w'))
   /\ (exists o w', reset w = Ok (o, w')))
  /\ (_from_pixels w = false ->
      (forall env a, observation (env_step env a).1 <> []) ->
      observation (env_reset (_env w)).1 <> [] ->
      (exists o r d x w', step w action = Ok (o, r, d, x, w'))
      /\ (exists o w', reset w = Ok (o, w'))).
Proof.
  intros Hskip Hnorm Hact Htrue.
  assert (Hn : (1 <= Z.to_nat (_frame_skip w))%nat) by lia.
  destruct (frame_loop_runs _ (_env w) act (PyInt 0) None Hn)
    as (k & tss & ts & env & Hk & _ & Hsub & _ & _ & Hrun).
  assert (Hstep : forall o w',
            _get_obs (with_env w env) (Some ts) = Ok (o, w') ->
            exists o r d x w', step w action = Ok (o, r, d, x, w')).
  { intros o w' Hobs. unfold step, py_assert.
    rewrite Hnorm. csimpl. rewrite Hact. csimpl. rewrite Htrue. csimpl.
    rewrite Hrun, Hobs. csimpl. eauto 10. }
  split.
  - intros Hpix Hty. split.
    + eapply Hstep. by apply get_obs_plain.
    + unfold reset. destruct (env_reset (_env w)) as [ts0 env0].
      rewrite get_obs_plain by done. eauto.
  - intros Hpix Hobs Hreset. split.
    + assert (Hts : observation ts <> []).
      { apply sub_steps_from_env in Hsub.
        apply Forall_app in Hsub as [_ Hts]. apply Forall_singleton in Hts as [e ->].
        apply Hobs. }
      destruct (observation ts) as [|kv dict] eqn:Hdict; [done|].
      eapply Hstep. rewrite get_obs_flat by done. rewrite Hdict.
      unfold _flatten_obs, Numpy.concatenate. rewrite pieces_foldl, app_nil_l.
      csimpl. done.
    + unfold reset. destruct (env_reset (_env w)) as [ts0 env0]. simpl in Hreset.
      rewrite get_obs_flat by done.
      destruct (observation ts0) as [|kv dict] eqn:Hdict; [done|].
      unfold _flatten_obs, Numpy.concatenate. rewrite pieces_foldl, app_nil_l.
      csimpl. eauto.
Qed.

End MoreProperties.

(** ** The further properties on the small suite *)

Lemma render_by_mode_witness :
  @render nat (Toy.suite Toy.actuator) Variants.plain_pixel_env "human" (Some 7)
    None (Some 5)
  = Ok (Toy.render 0 2 3 1, Variants.plain_pixel_env).
Proof.
  destruct (@render_by_mode nat (Toy.suite Toy.actuator) Variants.plain_pixel_env
              "human" (Some 7) None (Some 5)) as [Hpix _].
  destruct Hpix as (_ & Hok & _); [vm_compute; reflexivity|].
  apply Hok. vm_compute. reflexivity.
Defined.

Lemma step_without_frames_witness :
  @step nat (Toy.suite Toy.actuator) Variants.frozen_env [Float.f32 1 (-1)]
  = Raise (UnboundLocalError "time_step").
Proof.
  destruct (@step_without_frames nat (Toy.suite Toy.actuator) Variants.frozen_env
              [Float.f32 1 (-1)]) as [_ Hraise]; [vm_compute; discriminate|].
  apply (Hraise [Float.f32 1 0]); vm_compute; reflexivity.
Defined.

Lemma step_rejects_malformed_actions_witness :
  @step nat (Toy.suite Toy.actuator) Toy.state_env [S754_nan]
  = Raise (AssertionError "").
Proof.
  apply (@step_rejects_malformed_actions nat (Toy.suite Toy.actuator)).
  right. apply list_elem_of_here.
Defined.

Lemma step_reports_prior_state_witness :
  exists o r d x w',
    @step nat (Toy.suite Toy.actuator) Toy.state_env [Float.f32 1 (-1)]
    = Ok (o, r, d, x, w')
    /\ _env w' = 3%nat /\ internal_state x = [S754_zero false].
Proof.
  destruct (@step nat (Toy.suite Toy.actuator) Toy.state_env [Float.f32 1 (-1)])
    as [[[[[o r] d] x] w']|e] eqn:Hstep; [|vm_compute in Hstep; discriminate].
  exists o, r, d, x, w'. split; [reflexivity|].
  destruct (@step_reports_prior_state nat (Toy.suite Toy.actuator) _ _ _ _ _ _ _ Hstep)
    as [Hstate _].
  split; [|exact Hstate]. vm_compute in Hstep. by injection Hstep as _ _ _ _ <-.
Defined.

Lemma one_image_per_observation_witness :
  exists o w',
    @reset nat (Toy.suite Toy.actuator) Toy.pixel_env = Ok (o, w')
    /\ _bg_source w' = Some (MkBg (RandomColorSource (2, 3)) 1).
Proof.
  destruct (@one_image_per_observation nat (Toy.suite Toy.actuator) Toy.pixel_env)
    as (_ & Hreset & Hdrawn & _).
  destruct (@reset nat (Toy.suite Toy.actuator) Toy.pixel_env)
    as [[o w']|e] eqn:Hr; [|vm_compute in Hr; discriminate].
  exists o, w'. split; [reflexivity|].
  destruct (Hreset o w' eq_refl) as [_ ->].
  apply (Hdrawn _ (MkBg (RandomColorSource (2, 3)) 0)); [|vm_compute; reflexivity].
  repeat split; vm_compute; by eexists.
Defined.

Lemma flatten_obs_fails_only_when_empty_witness :
  @reset nat Variants.blind Variants.blind_env = Raise ValueError.
Proof.
  destruct (@flatten_obs_fails_only_when_empty nat Variants.blind) as [_ Hreset].
  apply Hreset; vm_compute; reflexivity.
Defined.

Lemma flatten_obs_slice_witness :
  exists v,
    _flatten_obs (observation (Toy.time_step 3)) = Ok v
    /\ take 1 (drop 4 v) = [Float.f64 3 0].
Proof.
  destruct (_flatten_obs (observation (Toy.time_step 3))) as [v|e] eqn:Hv;
    [|vm_compute in Hv; discriminate].
  exists v. split; [reflexivity|].
  apply (flatten_obs_slice _ v 1 "height" (Scalar (Float.f64 3 0)) Hv).
  reflexivity.
Defined.

Lemma get_obs_misfit_witness :
  @reset nat Variants.misfit Variants.misfit_env = Raise IndexError.
Proof.
  destruct (@get_obs_misfit nat Variants.misfit Variants.misfit_env
              (MkBg (NoiseSource (2, 3)) 0)) as [_ Hreset].
  - repeat split; vm_compute; by eexists.
  - vm_compute. reflexivity.
  - apply Hreset. vm_compute. reflexivity.
Defined.

Lemma getattr_own_attributes_witness :
  @getattr nat (Toy.suite Toy.actuator) Toy.state_env "_bg_source"
  = Raise (AttributeError "_bg_source")
  /\ @getattr nat (Toy.suite Toy.actuator) Toy.pixel_env "_bg_source"
     = Ok (InstanceAttr "_bg_source").
Proof.
  destruct (@getattr_own_attributes nat (Toy.suite Toy.actuator)) as [_ Hinit].
  split.
  - rewrite (Hinit "cartpole" "swingup" "~/bg/*.png" None (Some 10) Toy.seeded
               false false 2 3 1 4 None Toy.state_env); [|vm_compute; reflexivity].
    reflexivity.
  - rewrite (Hinit "cartpole" "swingup" "~/bg/*.png" (Some "color") (Some 10)
               Toy.seeded false true 2 3 1 4 None Toy.pixel_env);
      [|vm_compute; reflexivity].
    reflexivity.
Defined.

Lemma spec_to_box_unbounded_witness :
  _spec_to_box [Array [2; 2] float64; Array [] float64]
  = Ok (Gym.full_box Float.neg_inf Float.inf 5).
Proof.
  apply (spec_to_box_unbounded [Array [2; 2] float64; Array [] float64]);
    [discriminate | repeat constructor].
Defined.

Lemma spec_to_box_bounded_witness :
  _spec_to_box [Toy.lopsided_actuator]
  = Ok (Gym.MkBox [Float.f32 (-1) 0] [S754_finite false 13421773 (-26)] None).
Proof.
  unfold Toy.lopsided_actuator.
  rewrite spec_to_box_bounded; [reflexivity|reflexivity|reflexivity|reflexivity|..].
  - intros Hin. apply list_elem_of_singleton in Hin. vm_compute in Hin. discriminate.
  - intros Hin. apply list_elem_of_singleton in Hin. vm_compute in Hin. discriminate.
Defined.



Lemma convert_action_lower_bound_witness :
  exists act,
    _convert_action Toy.lopsided_env [Float.f32 (-1) 0] = Ok act
    /\ Forall2 same_number act [Float.f32 (-1) 0].
Proof.
  apply (@convert_action_lower_bound nat Toy.lopsided_env 1).
  - reflexivity.
  - reflexivity.
  - reflexivity.
  - repeat constructor.
  - repeat constructor.
Defined.

Lemma step_and_reset_return_witness :
  exists o r d x w',
    @step nat (Toy.suite Toy.actuator) Toy.state_env [Float.f32 1 (-1)]
    = Ok (o, r, d, x, w').
Proof.
  destruct (@step_and_reset_return nat (Toy.suite Toy.actuator) Toy.state_env
              [Float.f32 1 (-1)] [Float.f32 1 0]) as [_ Hstate].
  - vm_compute. discriminate.
  - vm_compute. reflexivity.
  - vm_compute. reflexivity.
  - vm_compute. reflexivity.
  - destruct Hstate as [Hstep _]; [reflexivity | discriminate | discriminate |].
    exact Hstep.
Defined.

Lemma spec_to_box_well_formed_witness :
  _spec_to_box [Array [3] other_dtype] = Raise (AssertionError "").
Proof.
  destruct spec_to_box_well_formed as (_ & _ & Hdtype).
  apply Hdtype. reflexivity.
Defined.
